(** * txkube: the network client of [txkube/_network.py]

    A shallow embedding of the HTTP transport layer of txkube: the path
    builder ([collection_location], [object_location]), the status check
    ([check_status]), the four operations of [_NetworkClient] ([create],
    [get], [delete], [list]) and the endpoint handle
    ([_NetworkKubernetes.client]).

    Twisted's [Deferred] callback chains are modelled by a small state and
    error monad: the state is the log of the calls made to the
    collaborators that perform I/O (the agent, [readBody],
    [KubernetesError.from_response]) or that convert documents ([loads],
    [object_from_raw]); the result is either a value or a failure.  The
    Eliot actions wrapped around each operation only describe the calls and
    never change a result, so they are left out; [log_response_object]
    therefore returns its document and does nothing else.

    The endpoint handle and its clients are values where the operations
    are concerned, and objects on a heap ([Objects]) where it matters which
    object refers to which and what a call of [client] creates. *)

From Stdlib Require Import String Ascii List ZArith Bool Lia DecimalString.
From Stdlib Require Import Sorted.
Import ListNotations.

Set Warnings "-register-all".

Local Open Scope string_scope.
Local Open Scope list_scope.

(** ** Values shared with the collaborators *)

(** Python 2 [str] values, i.e. raw bytes. *)
Definition bytes := list Byte.byte.

(** What [json.loads] returns and [json.dumps] accepts. *)
Inductive JSON : Type :=
| JNull
| JBool (b : bool)
| JNumber (n : Z)
| JString (s : string)
| JArray (items : list JSON)
| JObject (members : list (string * JSON)).

(** ** The domain objects, as far as the network client looks at them *)

(** [obj.metadata]: the name, the optional namespace, and everything else
    the metadata carries ([uid], labels, ...). *)
Record ObjectMetadata := mkObjectMetadata {
  name : string;
  namespace : option string;
  metadata_rest : JSON
}.

(** An instance of a type that provides [IObject]: [obj.kind],
    [obj.metadata] and the fields the client never reads. *)
Record IObject := mkIObject {
  obj_kind : string;
  metadata : ObjectMetadata;
  obj_rest : JSON
}.

(** What [collection_location] is handed: either an instance of an object
    type or the type itself, which has a [kind] and nothing else. *)
Inductive Resource : Type :=
| Instance (o : IObject)
| KindType (k : string).

(** [obj.kind] *)
Definition kind (obj : Resource) : string :=
  match obj with
  | Instance o => obj_kind o
  | KindType k => k
  end.

(** [IObject.providedBy(obj)] *)
Definition IObject_providedBy (obj : Resource) : bool :=
  match obj with
  | Instance _ => true
  | KindType _ => false
  end.

(** The namespace a resource descriptor has: that of its metadata for an
    instance, none for a type. *)
Definition resource_namespace (obj : Resource) : option string :=
  match obj with
  | Instance o => namespace (metadata o)
  | KindType _ => None
  end.

(** ** [unicode.lower] on kind names

    Kind names are ASCII identifiers: the capital letters A to Z are
    lowered, every other character stays. *)

Definition lower_ascii (c : ascii) : ascii :=
  let n := nat_of_ascii c in
  if (65 <=? n)%nat && (n <=? 90)%nat then ascii_of_nat (n + 32) else c.

Fixpoint lower (s : string) : string :=
  match s with
  | EmptyString => EmptyString
  | String c rest => String (lower_ascii c) (lower rest)
  end.

(** ** Path builder *)

(** [collection_location(obj)]: the path segments of the collection of
    objects like [obj]. *)
Definition collection_location (obj : Resource) : list string :=
  let kind := kind obj in
  let collection := (lower kind ++ "s")%string in
  let namespace :=
    match obj with
    | Instance o => namespace (metadata o)
    | KindType _ => None
    end in
  match namespace with
  | None => ["api"; "v1"; collection]
  | Some namespace => ["api"; "v1"; "namespaces"; namespace; collection]
  end.

(** [object_location(obj)] *)
Definition object_location (obj : IObject) : list string :=
  collection_location (Instance obj) ++ [name (metadata obj)].

(** ** Requests and responses *)

Inductive Method : Type := GET | DELETE | POST.

(** [twisted.python.url.URL], reduced to what [child] touches: the part
    before the path, and the path segments. *)
Record URL := mkURL {
  origin : string;
  path : list string
}.

(** [URL.child] applied to segments: they are added below the path; a
    trailing empty segment (the path ended in a slash) is replaced. *)
Definition child (u : URL) (segments : list string) : URL :=
  let parent :=
    match rev (path u) with
    | EmptyString :: before => rev before
    | _ => path u
    end in
  mkURL (origin u) (parent ++ segments).

(** [_BytesProducer]: a body producer over bytes held in memory. *)
Record _BytesProducer := mk_BytesProducer {
  _data : bytes
}.

(** The [length] property of [_BytesProducer]. *)
Definition _BytesProducer_length (self : _BytesProducer) : nat :=
  List.length (_data self).

(** [_BytesProducer.startProducing(consumer)]: the consumer is the list of
    the chunks written to it so far. *)
Definition _BytesProducer_startProducing
    (self : _BytesProducer) (consumer : list bytes) : list bytes :=
  consumer ++ [_data self].

(** The arguments of one [agent.request(method, url, headers, bodyProducer)]. *)
Record Request := mkRequest {
  method : Method;
  url : URL;
  headers : option (list (string * string));
  bodyProducer : option _BytesProducer
}.

(** How reading the body of a response ends: all of it arrives, or the
    transfer breaks off. *)
Inductive Delivery : Type :=
| Delivered (raw : bytes)
| Lost (why : string).

(** A response as the agent hands it over: the status line has arrived,
    the body is still to be read. *)
Record Response := mkResponse {
  code : Z;
  delivery : Delivery
}.

(** [twisted.web.http.OK] and [twisted.web.http.CREATED] *)
Definition OK : Z := 200.
Definition CREATED : Z := 201.

(** [KubernetesError]: the status code and the body of the response it
    was made from. *)
Record KubernetesError := mkKubernetesError {
  error_code : Z;
  error_body : bytes
}.

(** What [object_from_raw] produces: one object, or the objects of a
    collection in the order of the document. *)
Inductive Decoded : Type :=
| DecodedObject (o : IObject)
| DecodedCollection (items : list IObject).

(** ** Deferreds *)

(** The failures a Deferred of this module can end with. *)
Inductive Failure : Type :=
| ConnectionFailed (why : string)
| BodyReadFailed (why : string)
| ServerError (e : KubernetesError)
| DecodeError (raw : bytes)
| SchemaError (document : JSON).

Inductive Outcome (A : Type) : Type :=
| Ok (a : A)
| Err (f : Failure).

Arguments Ok {A} a.
Arguments Err {A} f.

(** The calls made to the collaborators, in the order they are made. *)
Inductive Call : Type :=
| CallRequest (r : Request)
| CallFromResponse (r : Response)
| CallReadBody (r : Response)
| CallLoads (raw : bytes)
| CallObjectFromRaw (document : JSON).

(** A Deferred, run to its result: from the calls made so far to the
    result and the calls made by then. *)
Definition Deferred (A : Type) : Type := list Call -> Outcome A * list Call.

Definition succeed {A : Type} (a : A) : Deferred A :=
  fun log => (Ok a, log).

(** A Deferred that has a [Failure] as its result. *)
Definition fail {A : Type} (f : Failure) : Deferred A :=
  fun log => (Err f, log).

(** [d.addCallback(callback)]: the callback runs on a result, and is passed
    over on a failure; a Deferred it returns is chained. *)
Definition addCallback {A B : Type}
    (d : Deferred A) (callback : A -> Deferred B) : Deferred B :=
  fun log =>
    match d log with
    | (Ok a, log') => callback a log'
    | (Err f, log') => (Err f, log')
    end.

(** Entering a call into the log. *)
Definition called (c : Call) : Deferred unit :=
  fun log => (Ok tt, log ++ [c]).

(** The result of a Deferred started on an empty log, and the calls it made. *)
Definition result {A : Type} (d : Deferred A) : Outcome A := fst (d []).
Definition calls {A : Type} (d : Deferred A) : list Call := snd (d []).

(** [IAgent]: answers a request with a response or with a failure. *)
Record IAgent := mkIAgent {
  request : Request -> Outcome Response
}.

(** The object model and the JSON codec the client is used with. *)
Class Collaborators := {
  (** [obj.to_raw()] *)
  to_raw : IObject -> JSON;
  (** [object_from_raw], [None] when it raises *)
  model_object_from_raw : JSON -> option Decoded;
  (** [json.dumps] *)
  dumps : JSON -> bytes;
  (** [json.loads], [None] when it raises [ValueError] *)
  json_loads : bytes -> option JSON
}.

(** [_NetworkKubernetes]: the location of a deployment and the agent to
    reach it with. *)
Record _NetworkKubernetes := mk_NetworkKubernetes {
  base_url : URL;
  _agent : IAgent
}.

(** [_NetworkClient] *)
Record _NetworkClient := mk_NetworkClient {
  kubernetes : _NetworkKubernetes;
  agent : IAgent
}.

(** [_NetworkKubernetes.client] *)
Definition client (self : _NetworkKubernetes) : _NetworkClient :=
  mk_NetworkClient self (_agent self).

(** ** The stages of a call *)

(** [twisted.web.client.readBody]: the body of the response, or the failure
    its transfer ended with. *)
Definition readBody (response : Response) : Deferred bytes :=
  addCallback (called (CallReadBody response)) (fun _ =>
    match delivery response with
    | Delivered raw => succeed raw
    | Lost why => fail (BodyReadFailed why)
    end).

(** Modelled from the spec: [KubernetesError.from_response], whose class is
    imported from the package and is not part of [_network.py].  It reads
    the body of the response and gives the error that carries the status
    code and that body; when the body cannot be read, that failure is the
    result instead.  The log has the call of [from_response]; how it gets
    at the body is its own affair. *)
Definition from_response (response : Response) : Deferred KubernetesError :=
  addCallback (called (CallFromResponse response)) (fun _ =>
    match delivery response with
    | Delivered raw => succeed (mkKubernetesError (code response) raw)
    | Lost why => fail (BodyReadFailed why)
    end).

(** [check_status(response, expected)] *)
Definition check_status (response : Response) (expected : list Z)
    : Deferred Response :=
  if negb (existsb (Z.eqb (code response)) expected) then
    let d := from_response response in
    let d := addCallback d (fun e => fail (ServerError e)) in
    d
  else
    succeed response.

(** [log_response_object(document, action)]: the document is added to the
    Eliot action and returned. *)
Definition log_response_object (document : JSON) : Deferred JSON :=
  succeed document.

Section NetworkClient.

Context `{Collaborators}.

(** [json.loads] as a callback. *)
Definition loads (raw : bytes) : Deferred JSON :=
  addCallback (called (CallLoads raw)) (fun _ =>
    match json_loads raw with
    | Some document => succeed document
    | None => fail (DecodeError raw)
    end).

(** [object_from_raw] as a callback. *)
Definition object_from_raw (document : JSON) : Deferred Decoded :=
  addCallback (called (CallObjectFromRaw document)) (fun _ =>
    match model_object_from_raw document with
    | Some obj => succeed obj
    | None => fail (SchemaError document)
    end).

(** [_NetworkClient._request]: the agent is asked, and its answer is the
    result of the Deferred.  The agent is handed the URL itself, where the
    source hands it [url.asText().encode("ascii")]: the model is of the
    calls whose URL has that encoding ([encodable] below); on any other URL
    the source raises [UnicodeEncodeError] before it asks the agent. *)
Definition _request (self : _NetworkClient) (method : Method) (url : URL)
    (headers : option (list (string * string)))
    (bodyProducer : option _BytesProducer) : Deferred Response :=
  let r := mkRequest method url headers bodyProducer in
  addCallback (called (CallRequest r)) (fun _ =>
    match request (agent self) r with
    | Ok response => succeed response
    | Err f => fail f
    end).

Definition _get (self : _NetworkClient) (url : URL) : Deferred Response :=
  _request self GET url None None.

Definition _delete (self : _NetworkClient) (url : URL) : Deferred Response :=
  _request self DELETE url None None.

Definition _post (self : _NetworkClient) (url : URL) (obj : JSON)
    : Deferred Response :=
  _request self POST url None (Some (mk_BytesProducer (dumps obj))).

(** [_NetworkClient.create] *)
Definition create (self : _NetworkClient) (obj : IObject) : Deferred Decoded :=
  let url := child (base_url (kubernetes self))
                   (collection_location (Instance obj)) in
  let document := to_raw obj in
  let d := _post self url document in
  let d := addCallback d (fun response => check_status response [CREATED]) in
  let d := addCallback d readBody in
  let d := addCallback d loads in
  let d := addCallback d log_response_object in
  let d := addCallback d object_from_raw in
  d.

(** [_NetworkClient.get] *)
Definition get (self : _NetworkClient) (obj : IObject) : Deferred Decoded :=
  let url := child (base_url (kubernetes self)) (object_location obj) in
  let d := _get self url in
  let d := addCallback d (fun response => check_status response [OK]) in
  let d := addCallback d readBody in
  let d := addCallback d loads in
  let d := addCallback d log_response_object in
  let d := addCallback d object_from_raw in
  d.

(** [_NetworkClient.delete]: the last callback is [lambda raw: None]. *)
Definition delete (self : _NetworkClient) (obj : IObject) : Deferred unit :=
  let url := child (base_url (kubernetes self)) (object_location obj) in
  let d := _delete self url in
  let d := addCallback d (fun response => check_status response [OK]) in
  let d := addCallback d readBody in
  let d := addCallback d (fun raw => succeed tt) in
  d.

(** [_NetworkClient.list] *)
Definition list_ (self : _NetworkClient) (kind : Resource) : Deferred Decoded :=
  let url := child (base_url (kubernetes self)) (collection_location kind) in
  let d := _get self url in
  let d := addCallback d (fun response => check_status response [OK]) in
  let d := addCallback d readBody in
  let d := addCallback d loads in
  let d := addCallback d object_from_raw in
  d.

End NetworkClient.

(** ** An in-memory double of the collaborators

    A small object model and JSON codec to run the client on: [to_raw]
    writes an object as a flat document, [dumps] prints a document as JSON
    text, and [loads] reads back the text of the documents it knows. *)

Module Fake.

Definition text_of_Z (n : Z) : string := NilZero.string_of_int (Z.to_int n).

Definition quote : ascii := ascii_of_nat 34.

Definition quoted (s : string) : string :=
  (String quote s ++ String quote EmptyString)%string.

Fixpoint text_of (document : JSON) : string :=
  match document with
  | JNull => "null"
  | JBool true => "true"
  | JBool false => "false"
  | JNumber n => text_of_Z n
  | JString s => quoted s
  | JArray items => "[" ++ String.concat ", " (map text_of items) ++ "]"
  | JObject members =>
      "{" ++ String.concat ", "
               (map (fun m => quoted (fst m) ++ ": " ++ text_of (snd m)) members)
          ++ "}"
  end%string.

Definition field (key : string) (document : JSON) : option JSON :=
  match document with
  | JObject members =>
      option_map snd (find (fun m => String.eqb (fst m) key) members)
  | _ => None
  end.

Definition raw_of_object (o : IObject) : JSON :=
  JObject [ ("kind", JString (obj_kind o));
            ("name", JString (name (metadata o)));
            ("namespace", match namespace (metadata o) with
                          | Some ns => JString ns
                          | None => JNull
                          end);
            ("metadata", metadata_rest (metadata o));
            ("rest", obj_rest o) ].

Definition object_of_raw (document : JSON) : option IObject :=
  match field "kind" document, field "name" document,
        field "namespace" document, field "metadata" document,
        field "rest" document with
  | Some (JString k), Some (JString n), Some (JString ns), Some m, Some r =>
      Some (mkIObject k (mkObjectMetadata n (Some ns) m) r)
  | Some (JString k), Some (JString n), Some JNull, Some m, Some r =>
      Some (mkIObject k (mkObjectMetadata n None m) r)
  | _, _, _, _, _ => None
  end.

Fixpoint objects_of_raw (documents : list JSON) : option (list IObject) :=
  match documents with
  | [] => Some []
  | document :: rest =>
      match object_of_raw document, objects_of_raw rest with
      | Some o, Some os => Some (o :: os)
      | _, _ => None
      end
  end.

Definition decoded_of_raw (document : JSON) : option Decoded :=
  match field "items" document with
  | Some (JArray items) => option_map DecodedCollection (objects_of_raw items)
  | Some _ => None
  | None => option_map DecodedObject (object_of_raw document)
  end.

Definition bytes_of_text (s : string) : bytes := list_byte_of_string s.

(** The codec that knows the documents [known]. *)
Definition codec (known : list JSON) : Collaborators := {|
  to_raw := raw_of_object;
  model_object_from_raw := decoded_of_raw;
  dumps := fun document => bytes_of_text (text_of document);
  json_loads := fun raw =>
    find (fun document =>
            String.eqb (text_of document) (string_of_list_byte raw)) known
|}.

(** A pod in a namespace, a namespace (which has none), and the same pod
    with other contents. *)
Definition pod : IObject :=
  mkIObject "Pod" (mkObjectMetadata "p1" (Some "ns1") JNull) JNull.

Definition pod' : IObject :=
  mkIObject "Pod" (mkObjectMetadata "p1" (Some "ns1") (JString "uid-7"))
            (JObject [("image", JString "nginx")]).

Definition ns1 : IObject :=
  mkIObject "Namespace" (mkObjectMetadata "ns1" None JNull) JNull.

Definition pods : JSON :=
  JObject [("items", JArray [raw_of_object pod])].

Definition collaborators : Collaborators :=
  codec [raw_of_object pod; raw_of_object ns1; pods].

(** A server that answers every request with the same response, and an
    agent that cannot connect. *)
Definition answering (response : Response) : IAgent :=
  mkIAgent (fun _ => Ok response).

Definition unreachable : IAgent :=
  mkIAgent (fun _ => Err (ConnectionFailed "connection refused")).

Definition cluster (a : IAgent) : _NetworkKubernetes :=
  mk_NetworkKubernetes (mkURL "https://kube.example:443" [""]) a.

Definition garbage : bytes := bytes_of_text "<html>gone</html>".

End Fake.

(** Clients of a server that answers 200 where 201 is due, and of one that
    answers 200 with a body that is no JSON. *)

Module Runs.

Import Fake.

(** The pod, as the server would echo it. *)
Definition echo : bytes := @dumps collaborators (raw_of_object pod).

Definition ok_instead_of_created : _NetworkClient :=
  client (cluster (answering (mkResponse 200 (Delivered echo)))).

Definition ok_with_garbage : _NetworkClient :=
  client (cluster (answering (mkResponse 200 (Delivered garbage)))).

End Runs.

(** A server that keeps what is posted to it: it answers a POST with 201
    and every other request with 200, each time with the same body.  And a
    codec that knows the document [null], which is no object. *)

Module Store.

Definition keeping (body : bytes) : IAgent :=
  mkIAgent (fun r =>
    match method r with
    | POST => Ok (mkResponse 201 (Delivered body))
    | _ => Ok (mkResponse 200 (Delivered body))
    end).

Definition null_codec : Collaborators := Fake.codec [JNull].

Definition null : bytes := @dumps null_codec JNull.

End Store.

(** ** The text of a URL

    [url.asText().encode("ascii")] goes through when no character of the
    URL lies beyond ASCII, and raises [UnicodeEncodeError] otherwise. *)

Definition is_ascii (c : ascii) : bool := (nat_of_ascii c <? 128)%nat.

Definition ascii_text (s : string) : bool :=
  forallb is_ascii (list_ascii_of_string s).

Definition encodable (u : URL) : bool :=
  ascii_text (origin u) && forallb ascii_text (path u).

(** ** The endpoint and its clients as objects

    [_NetworkKubernetes] and [_NetworkClient] are [attr.s(frozen=True)]
    classes: their instances are objects on the heap that refer to other
    objects, and that refuse every assignment to an attribute.  The heap
    is a list of objects, an object is referred to by its place in it, and
    a new object is put at the end. *)

Module Objects.

Definition Ref : Type := nat.

(** What an attribute of a plain object holds. *)
Inductive Value : Type :=
| VRef (r : Ref)
| VText (s : string).

(** The objects the endpoint handle deals with: an agent (an object that
    provides [IAgent], with what it answers and the attributes it has), any
    other object (it provides neither [IAgent] nor [IKubernetes]), an
    instance of [_NetworkKubernetes] with its [base_url] and the reference
    in [_agent], and an instance of [_NetworkClient] with the references in
    [kubernetes] and [agent]. *)
Inductive PyObject : Type :=
| PyAgent (answers : IAgent) (state : list (string * Value))
| PyPlain (state : list (string * Value))
| PyKubernetes (base_url : URL) (_agent : Ref)
| PyClient (kubernetes : Ref) (agent : Ref).

Definition Heap : Type := list PyObject.

Inductive Raised : Type :=
| TypeError (attribute : string)
| FrozenInstanceError
| AttributeError (name : string).

(** [IKubernetes.providedBy(value)] and [IAgent.providedBy(value)] *)
Definition IKubernetes_providedBy (h : Heap) (value : Ref) : bool :=
  match nth_error h value with
  | Some (PyKubernetes _ _) => true
  | _ => false
  end.

Definition IAgent_providedBy (h : Heap) (value : Ref) : bool :=
  match nth_error h value with
  | Some (PyAgent _ _) => true
  | _ => false
  end.

(** The heap with the object at [r] replaced. *)
Fixpoint put (h : Heap) (r : Ref) (o : PyObject) : Heap :=
  match h, r with
  | [], _ => []
  | _ :: rest, 0 => o :: rest
  | first :: rest, S r' => first :: put rest r' o
  end.

(** The attributes with [name] set to [value]. *)
Fixpoint assign (name : string) (value : Value) (state : list (string * Value))
    : list (string * Value) :=
  match state with
  | [] => [(name, value)]
  | (n, v) :: rest =>
      if String.eqb n name then (name, value) :: rest
      else (n, v) :: assign name value rest
  end.

(** [setattr(obj, name, value)]: an instance of a frozen class raises, any
    other object takes the value. *)
Definition setattr (h : Heap) (obj : Ref) (name : string) (value : Value)
    : Heap * (unit + Raised) :=
  match nth_error h obj with
  | Some (PyKubernetes _ _) => (h, inr FrozenInstanceError)
  | Some (PyClient _ _) => (h, inr FrozenInstanceError)
  | Some (PyAgent answers state) =>
      (put h obj (PyAgent answers (assign name value state)), inl tt)
  | Some (PyPlain state) =>
      (put h obj (PyPlain (assign name value state)), inl tt)
  | None => (h, inr (AttributeError name))
  end.

(** [_NetworkClient(kubernetes, agent)]: the validators of the two
    attributes, [provides(IKubernetes)] and [provides(IAgent)], run in the
    order of the attributes; the instance exists when both pass. *)
Definition _NetworkClient_init (h : Heap) (kubernetes agent : Ref)
    : Heap * (Ref + Raised) :=
  if negb (IKubernetes_providedBy h kubernetes) then
    (h, inr (TypeError "kubernetes"))
  else if negb (IAgent_providedBy h agent) then
    (h, inr (TypeError "agent"))
  else
    (h ++ [PyClient kubernetes agent], inl (List.length h)).

(** [_NetworkKubernetes.client(self)]: [_NetworkClient(self, self._agent)] *)
Definition client (h : Heap) (self : Ref) : Heap * (Ref + Raised) :=
  match nth_error h self with
  | Some (PyKubernetes _ _agent) => _NetworkClient_init h self _agent
  | _ => (h, inr (AttributeError "client"))
  end.

(** [network_kubernetes(base_url=..., agent=...)], that is
    [_NetworkKubernetes] with these arguments: the agent has no validator,
    and when none is given it is a new [Agent] on the reactor, whose
    answers are those of [reactor]. *)
Definition network_kubernetes (reactor : IAgent) (h : Heap) (base_url : URL)
    (agent : option Ref) : Heap * (Ref + Raised) :=
  match agent with
  | Some given =>
      (h ++ [PyKubernetes base_url given], inl (List.length h))
  | None =>
      (h ++ [PyAgent reactor []; PyKubernetes base_url (List.length h)],
       inl (S (List.length h)))
  end.

(** [client] called [n] times in a row on one endpoint. *)
Fixpoint clients (n : nat) (h : Heap) (self : Ref)
    : Heap * list (Ref + Raised) :=
  match n with
  | 0 => (h, [])
  | S n' =>
      let (h1, first) := client h self in
      let (h2, others) := clients n' h1 self in
      (h2, first :: others)
  end.

End Objects.

(** The endpoint and the client that an object on the heap stands for. *)
Definition endpoint_at (h : Objects.Heap) (r : Objects.Ref)
    : option _NetworkKubernetes :=
  match nth_error h r with
  | Some (Objects.PyKubernetes u a) =>
      match nth_error h a with
      | Some (Objects.PyAgent answers _) => Some (mk_NetworkKubernetes u answers)
      | _ => None
      end
  | _ => None
  end.

Definition client_at (h : Objects.Heap) (r : Objects.Ref)
    : option _NetworkClient :=
  match nth_error h r with
  | Some (Objects.PyClient k a) =>
      match endpoint_at h k, nth_error h a with
      | Some endpoint, Some (Objects.PyAgent answers _) =>
          Some (mk_NetworkClient endpoint answers)
      | _, _ => None
      end
  | _ => None
  end.

(** A heap with an agent and an endpoint on it, and one whose endpoint was
    given an object that is no agent. *)
Module Heaps.

Definition address : URL := mkURL "https://kube.example:443" [""].

Definition sound : Objects.Heap :=
  [Objects.PyAgent Fake.unreachable []; Objects.PyKubernetes address 0].

Definition unsound : Objects.Heap :=
  [Objects.PyPlain []; Objects.PyKubernetes address 0].

End Heaps.

(** ** Vocabulary of the statements *)

(** The request a client sends for the given method, path segments below
    its base URL, and body: no headers, and a producer over the body when
    there is one. *)
Definition request_to (self : _NetworkClient) (m : Method)
    (segments : list string) (body : option bytes) : Request :=
  mkRequest m (child (base_url (kubernetes self)) segments) None
            (option_map mk_BytesProducer body).

(** The segments of a collection that is not in a namespace, and of one
    that is. *)
Definition cluster_path (k : string) : list string :=
  ["api"; "v1"; (lower k ++ "s")%string].

Definition namespaced_path (ns k : string) : list string :=
  ["api"; "v1"; "namespaces"; ns; (lower k ++ "s")%string].

(** A Deferred that makes no request: whatever it adds to the log, no
    call of the agent is among it. *)
Definition quiet {A : Type} (d : Deferred A) : Prop :=
  forall log, exists rest,
    snd (d log) = log ++ rest /\ forall r, ~ In (CallRequest r) rest.

(** A Deferred that makes the request [rq], first of all, and no other. *)
Definition sends {A : Type} (rq : Request) (d : Deferred A) : Prop :=
  forall log, exists rest,
    snd (d log) = log ++ CallRequest rq :: rest /\
    forall r, ~ In (CallRequest r) rest.

(** A Deferred whose result does not depend on the calls made before it,
    and that only adds its own calls to them. *)
Definition stateless {A : Type} (d : Deferred A) : Prop :=
  forall log, d log = (result d, log ++ calls d).

(** Whether a call is a request to the agent. *)
Definition is_request (c : Call) : bool :=
  match c with
  | CallRequest _ => true
  | _ => false
  end.

(** The place of a call in the course of an operation: the request, then
    either the making of the error or the body read, then the parse, then
    the decoding. *)
Definition stage (c : Call) : nat :=
  match c with
  | CallRequest _ => 0
  | CallFromResponse _ => 1
  | CallReadBody _ => 1
  | CallLoads _ => 2
  | CallObjectFromRaw _ => 3
  end.

(** What the callbacks of [create], [get] and [list] make of the answer of
    the agent, and the calls they make on the way. *)
Definition handled `{Collaborators} (expected : list Z)
    (answer : Outcome Response) : Outcome Decoded * list Call :=
  match answer with
  | Err f => (Err f, [])
  | Ok response =>
      if existsb (Z.eqb (code response)) expected then
        match delivery response with
        | Lost why => (Err (BodyReadFailed why), [CallReadBody response])
        | Delivered raw =>
            match json_loads raw with
            | None =>
                (Err (DecodeError raw), [CallReadBody response; CallLoads raw])
            | Some document =>
                (match model_object_from_raw document with
                 | Some decoded => Ok decoded
                 | None => Err (SchemaError document)
                 end,
                 [CallReadBody response; CallLoads raw;
                  CallObjectFromRaw document])
            end
        end
      else
        (match delivery response with
         | Delivered raw =>
             Err (ServerError (mkKubernetesError (code response) raw))
         | Lost why => Err (BodyReadFailed why)
         end, [CallFromResponse response])
  end.

(** The same for the callbacks of [delete]. *)
Definition drained (answer : Outcome Response) : Outcome unit * list Call :=
  match answer with
  | Err f => (Err f, [])
  | Ok response =>
      if existsb (Z.eqb (code response)) [OK] then
        (match delivery response with
         | Delivered _ => Ok tt
         | Lost why => Err (BodyReadFailed why)
         end, [CallReadBody response])
      else
        (match delivery response with
         | Delivered raw =>
             Err (ServerError (mkKubernetesError (code response) raw))
         | Lost why => Err (BodyReadFailed why)
         end, [CallFromResponse response])
  end.

(** * Properties *)

(** ** Path builder *)

Lemma lower_ascii_upper (c : ascii) :
  (65 <= nat_of_ascii c <= 90)%nat ->
  nat_of_ascii (lower_ascii c) = (nat_of_ascii c + 32)%nat.
Proof.
  intros [Hlo Hhi]. unfold lower_ascii.
  apply Nat.leb_le in Hlo as ->. apply Nat.leb_le in Hhi as Hb. rewrite Hb.
  cbn [andb]. apply nat_ascii_embedding. lia.
Qed.

Lemma lower_ascii_other (c : ascii) :
  (nat_of_ascii c < 65 \/ 90 < nat_of_ascii c)%nat -> lower_ascii c = c.
Proof.
  intros Hout. unfold lower_ascii.
  destruct (65 <=? nat_of_ascii c)%nat eqn:Hlo; [|reflexivity].
  destruct (nat_of_ascii c <=? 90)%nat eqn:Hhi; [|reflexivity].
  apply Nat.leb_le in Hlo, Hhi. lia.
Qed.

Lemma lower_length (s : string) : String.length (lower s) = String.length s.
Proof. induction s as [|c s IH]; cbn; [reflexivity | now rewrite IH]. Qed.

Lemma lower_ascii_idempotent (c : ascii) :
  lower_ascii (lower_ascii c) = lower_ascii c.
Proof. destruct c as [[] [] [] [] [] [] [] []]; reflexivity. Qed.

Lemma lower_idempotent (s : string) : lower (lower s) = lower s.
Proof.
  induction s as [|c s IH]; cbn; [reflexivity|].
  now rewrite IH, lower_ascii_idempotent.
Qed.

Lemma collection_location_instance (o : IObject) :
  collection_location (Instance o) =
  match namespace (metadata o) with
  | None => cluster_path (obj_kind o)
  | Some ns => namespaced_path ns (obj_kind o)
  end.
Proof. reflexivity. Qed.

Lemma collection_location_type (k : string) :
  collection_location (KindType k) = cluster_path k.
Proof. reflexivity. Qed.

(** C1: a resource descriptor with kind [k] and a namespace [ns] has the
    collection location [("api", "v1", "namespaces", ns, k.lower() + "s")],
    and one without a namespace has [("api", "v1", k.lower() + "s")]; a
    type standing for a kind is among the latter. *)
Theorem collection_location_by_namespace :
  (forall (obj : Resource) (k ns : string),
      kind obj = k -> resource_namespace obj = Some ns ->
      collection_location obj =
      ["api"; "v1"; "namespaces"; ns; (lower k ++ "s")%string]) /\
  (forall (obj : Resource) (k : string),
      kind obj = k -> resource_namespace obj = None ->
      collection_location obj = ["api"; "v1"; (lower k ++ "s")%string]) /\
  (forall k : string, resource_namespace (KindType k) = None).
Proof.
  split; [|split].
  - intros [o|k'] k ns <- Hns; cbn in Hns.
    + rewrite collection_location_instance, Hns. reflexivity.
    + discriminate.
  - intros [o|k'] k <- Hns; cbn in Hns.
    + rewrite collection_location_instance, Hns. reflexivity.
    + apply collection_location_type.
  - reflexivity.
Qed.

Lemma collection_location_by_namespace_witness :
  collection_location (Instance Fake.pod) =
    ["api"; "v1"; "namespaces"; "ns1"; "pods"] /\
  collection_location (Instance Fake.ns1) = ["api"; "v1"; "namespaces"] /\
  collection_location (KindType "Pod") = ["api"; "v1"; "pods"].
Proof.
  split; [|split].
  - exact (proj1 collection_location_by_namespace
             (Instance Fake.pod) "Pod" "ns1" eq_refl eq_refl).
  - exact (proj1 (proj2 collection_location_by_namespace)
             (Instance Fake.ns1) "Namespace" eq_refl eq_refl).
  - exact (proj1 (proj2 collection_location_by_namespace)
             (KindType "Pod") "Pod" eq_refl eq_refl).
Defined.

(** C2: the location of an object is the location of its collection with
    [obj.metadata.name] added as the last segment. *)
Theorem object_location_appends_name (obj : IObject) :
  object_location obj =
    collection_location (Instance obj) ++ [name (metadata obj)] /\
  removelast (object_location obj) = collection_location (Instance obj) /\
  last (object_location obj) "" = name (metadata obj) /\
  List.length (object_location obj) =
    S (List.length (collection_location (Instance obj))).
Proof.
  unfold object_location. split; [|split; [|split]].
  - reflexivity.
  - apply removelast_last.
  - apply last_last.
  - rewrite length_app. cbn. lia.
Qed.

(** ** Deferreds and the stages of a call *)

Lemma addCallback_ok {A B : Type} (d : Deferred A) (callback : A -> Deferred B)
    (log log' : list Call) (a : A) :
  d log = (Ok a, log') -> addCallback d callback log = callback a log'.
Proof. intros Hd. unfold addCallback. now rewrite Hd. Qed.

Lemma addCallback_err {A B : Type} (d : Deferred A) (callback : A -> Deferred B)
    (log log' : list Call) (f : Failure) :
  d log = (Err f, log') -> addCallback d callback log = (Err f, log').
Proof. intros Hd. unfold addCallback. now rewrite Hd. Qed.

(** A failure passes every callback added after it. *)
Lemma addCallback_inv_ok {A B : Type} (d : Deferred A)
    (callback : A -> Deferred B) (log log' : list Call) (b : B) :
  addCallback d callback log = (Ok b, log') ->
  exists a mid, d log = (Ok a, mid) /\ callback a mid = (Ok b, log').
Proof.
  unfold addCallback. destruct (d log) as [[a|f] mid]; intros Hrun.
  - now exists a, mid.
  - discriminate.
Qed.

Lemma code_in_expected (response : Response) (expected : list Z) :
  existsb (Z.eqb (code response)) expected = true <->
  In (code response) expected.
Proof.
  rewrite existsb_exists. split.
  - intros (c & Hin & Heq). apply Z.eqb_eq in Heq. now subst c.
  - intros Hin. exists (code response). split; [assumption | apply Z.eqb_refl].
Qed.

Lemma readBody_run (response : Response) (log : list Call) :
  readBody response log =
  (match delivery response with
   | Delivered raw => Ok raw
   | Lost why => Err (BodyReadFailed why)
   end, log ++ [CallReadBody response]).
Proof. unfold readBody, addCallback, called. now destruct (delivery response). Qed.

Lemma from_response_run (response : Response) (log : list Call) :
  from_response response log =
  (match delivery response with
   | Delivered raw => Ok (mkKubernetesError (code response) raw)
   | Lost why => Err (BodyReadFailed why)
   end, log ++ [CallFromResponse response]).
Proof.
  unfold from_response, addCallback, called. now destruct (delivery response).
Qed.

Lemma check_status_expected (response : Response) (expected : list Z)
    (log : list Call) :
  In (code response) expected ->
  check_status response expected log = (Ok response, log).
Proof.
  intros Hin. apply code_in_expected in Hin.
  unfold check_status. now rewrite Hin.
Qed.

Lemma check_status_unexpected (response : Response) (expected : list Z)
    (log : list Call) :
  ~ In (code response) expected ->
  check_status response expected log =
  (match delivery response with
   | Delivered raw => Err (ServerError (mkKubernetesError (code response) raw))
   | Lost why => Err (BodyReadFailed why)
   end, log ++ [CallFromResponse response]).
Proof.
  intros Hout. unfold check_status.
  destruct (existsb (Z.eqb (code response)) expected) eqn:Hin.
  - apply code_in_expected in Hin. contradiction.
  - cbn. unfold addCallback. rewrite from_response_run.
    now destruct (delivery response).
Qed.

(** [check_status] never turns a response into another one. *)
Lemma check_status_inv_ok (response passed : Response) (expected : list Z)
    (log log' : list Call) :
  check_status response expected log = (Ok passed, log') ->
  passed = response /\ log' = log /\ In (code response) expected.
Proof.
  intros Hrun.
  destruct (existsb (Z.eqb (code response)) expected) eqn:Hin.
  - apply code_in_expected in Hin.
    rewrite check_status_expected in Hrun by assumption.
    injection Hrun as <- <-. now repeat split.
  - assert (Hout : ~ In (code response) expected).
    { intros Habs. apply code_in_expected in Habs. congruence. }
    rewrite check_status_unexpected in Hrun by assumption.
    destruct (delivery response); discriminate.
Qed.

(** C4: when the status code of the response is among the expected ones,
    [check_status] gives back the response as it is; otherwise it fails
    with the [KubernetesError] made from the response, which carries the
    status code and the body, and no callback added after it runs: neither
    the body read, nor the JSON parse, nor the decoding. *)
Theorem check_status_passes_or_fails
    `{Collaborators} (response : Response) (expected : list Z)
    (log : list Call) :
  (In (code response) expected ->
   check_status response expected log = (Ok response, log)) /\
  (~ In (code response) expected ->
   (forall raw, delivery response = Delivered raw ->
      check_status response expected log =
      (Err (ServerError (mkKubernetesError (code response) raw)),
       log ++ [CallFromResponse response])) /\
   (exists f,
      check_status response expected log =
        (Err f, log ++ [CallFromResponse response]) /\
      (forall (B : Type) (later : Response -> Deferred B),
         addCallback (check_status response expected) later log =
         (Err f, log ++ [CallFromResponse response])) /\
      addCallback
        (addCallback
           (addCallback (check_status response expected) readBody) loads)
        object_from_raw log =
      (Err f, log ++ [CallFromResponse response]))).
Proof.
  split.
  - apply check_status_expected.
  - intros Hout. pose proof (check_status_unexpected _ _ log Hout) as Hrun.
    split.
    + intros raw Hraw. now rewrite Hrun, Hraw.
    + destruct (delivery response) as [raw|why]; eexists;
        (split; [exact Hrun|]); split;
        try (intros B later); repeat erewrite addCallback_err; eauto.
Qed.

Lemma check_status_passes_or_fails_witness :
  check_status (mkResponse 200 (Delivered Fake.garbage)) [OK] [] =
    (Ok (mkResponse 200 (Delivered Fake.garbage)), []) /\
  check_status (mkResponse 404 (Delivered Fake.garbage)) [OK] [] =
    (Err (ServerError (mkKubernetesError 404 Fake.garbage)),
     [CallFromResponse (mkResponse 404 (Delivered Fake.garbage))]).
Proof.
  split.
  - apply (proj1 (@check_status_passes_or_fails Fake.collaborators
                    (mkResponse 200 (Delivered Fake.garbage)) [OK] [])).
    cbn. left. reflexivity.
  - apply (proj1 (proj2 (@check_status_passes_or_fails Fake.collaborators
                    (mkResponse 404 (Delivered Fake.garbage)) [OK] []) 
                    ltac:(cbn; intros [Heq|[]]; discriminate))).
    reflexivity.
Defined.

(** ** What a chain of callbacks adds to the log *)

Lemma quiet_succeed {A : Type} (a : A) : quiet (succeed a).
Proof. intros log. exists []. cbn. now rewrite app_nil_r. Qed.

Lemma quiet_fail {A : Type} (f : Failure) : quiet (@fail A f).
Proof. intros log. exists []. cbn. now rewrite app_nil_r. Qed.

Lemma quiet_called (c : Call) :
  (forall r, c <> CallRequest r) -> quiet (called c).
Proof.
  intros Hc log. exists [c]. split; [reflexivity|].
  intros r [Heq|[]]. now apply (Hc r).
Qed.

Lemma quiet_addCallback {A B : Type} (d : Deferred A)
    (callback : A -> Deferred B) :
  quiet d -> (forall a, quiet (callback a)) -> quiet (addCallback d callback).
Proof.
  intros Hd Hcb log. destruct (Hd log) as (rest & Hsnd & Hnone).
  unfold addCallback. destruct (d log) as [[a|f] log']; cbn in Hsnd; subst log'.
  - destruct (Hcb a (log ++ rest)) as (rest' & Hsnd' & Hnone').
    exists (rest ++ rest'). rewrite Hsnd', app_assoc. split; [reflexivity|].
    intros r Hin. apply in_app_or in Hin as [Hin|Hin];
      [now apply (Hnone r) | now apply (Hnone' r)].
  - now exists rest.
Qed.

Lemma sends_addCallback {A B : Type} (rq : Request) (d : Deferred A)
    (callback : A -> Deferred B) :
  sends rq d -> (forall a, quiet (callback a)) ->
  sends rq (addCallback d callback).
Proof.
  intros Hd Hcb log. destruct (Hd log) as (rest & Hsnd & Hnone).
  unfold addCallback. destruct (d log) as [[a|f] log']; cbn in Hsnd; subst log'.
  - destruct (Hcb a (log ++ CallRequest rq :: rest)) as (rest' & Hsnd' & Hnone').
    exists (rest ++ rest'). rewrite Hsnd', <- app_assoc. split; [reflexivity|].
    intros r Hin. apply in_app_or in Hin as [Hin|Hin];
      [now apply (Hnone r) | now apply (Hnone' r)].
  - now exists rest.
Qed.

Lemma stateless_succeed {A : Type} (a : A) : stateless (succeed a).
Proof. intros log. cbn. now rewrite app_nil_r. Qed.

Lemma stateless_fail {A : Type} (f : Failure) : stateless (@fail A f).
Proof. intros log. cbn. now rewrite app_nil_r. Qed.

Lemma stateless_called (c : Call) : stateless (called c).
Proof. intros log. reflexivity. Qed.

Lemma stateless_addCallback {A B : Type} (d : Deferred A)
    (callback : A -> Deferred B) :
  stateless d -> (forall a, stateless (callback a)) ->
  stateless (addCallback d callback).
Proof.
  intros Hd Hcb log. unfold result, calls, addCallback.
  rewrite (Hd log). destruct (d []) as [[a|f] mid] eqn:Hrun.
  - unfold result, calls. rewrite Hrun. cbn [fst snd].
    rewrite (Hcb a (log ++ mid)), (Hcb a mid). cbn [fst snd].
    now rewrite app_assoc.
  - unfold result, calls. rewrite Hrun. reflexivity.
Qed.

Lemma quiet_readBody (response : Response) : quiet (readBody response).
Proof.
  apply quiet_addCallback; [apply quiet_called; discriminate|].
  intros _. destruct (delivery response); [apply quiet_succeed | apply quiet_fail].
Qed.

Lemma quiet_check_status (response : Response) (expected : list Z) :
  quiet (check_status response expected).
Proof.
  unfold check_status.
  destruct (negb (existsb (Z.eqb (code response)) expected));
    [|apply quiet_succeed].
  apply quiet_addCallback; [|intros e; apply quiet_fail].
  apply quiet_addCallback; [apply quiet_called; discriminate|].
  intros _. destruct (delivery response); [apply quiet_succeed | apply quiet_fail].
Qed.

Lemma stateless_readBody (response : Response) : stateless (readBody response).
Proof.
  apply stateless_addCallback; [apply stateless_called|].
  intros _. destruct (delivery response);
    [apply stateless_succeed | apply stateless_fail].
Qed.

Lemma stateless_check_status (response : Response) (expected : list Z) :
  stateless (check_status response expected).
Proof.
  unfold check_status.
  destruct (negb (existsb (Z.eqb (code response)) expected));
    [|apply stateless_succeed].
  apply stateless_addCallback; [|intros e; apply stateless_fail].
  apply stateless_addCallback; [apply stateless_called|].
  intros _. destruct (delivery response);
    [apply stateless_succeed | apply stateless_fail].
Qed.

Create HintDb deferred.

#[export] Hint Resolve quiet_succeed quiet_fail quiet_readBody
  quiet_check_status : deferred.
#[export] Hint Resolve stateless_succeed stateless_fail stateless_called
  stateless_readBody stateless_check_status : deferred.

(** ** The four operations *)

Section Operations.

Context `{Collaborators}.

Lemma _request_run (self : _NetworkClient) (m : Method) (u : URL)
    (h : option (list (string * string))) (b : option _BytesProducer)
    (log : list Call) :
  _request self m u h b log =
  (request (agent self) (mkRequest m u h b),
   log ++ [CallRequest (mkRequest m u h b)]).
Proof.
  unfold _request, addCallback, called.
  now destruct (request (agent self) (mkRequest m u h b)).
Qed.

Lemma loads_run (raw : bytes) (log : list Call) :
  loads raw log =
  (match json_loads raw with
   | Some document => Ok document
   | None => Err (DecodeError raw)
   end, log ++ [CallLoads raw]).
Proof. unfold loads, addCallback, called. now destruct (json_loads raw). Qed.

Lemma object_from_raw_run (document : JSON) (log : list Call) :
  object_from_raw document log =
  (match model_object_from_raw document with
   | Some decoded => Ok decoded
   | None => Err (SchemaError document)
   end, log ++ [CallObjectFromRaw document]).
Proof.
  unfold object_from_raw, addCallback, called.
  now destruct (model_object_from_raw document).
Qed.

Lemma quiet_loads (raw : bytes) : quiet (loads raw).
Proof.
  intros log. exists [CallLoads raw]. rewrite loads_run. split; [reflexivity|].
  intros r [Heq|[]]. discriminate.
Qed.

Lemma quiet_object_from_raw (document : JSON) :
  quiet (object_from_raw document).
Proof.
  intros log. exists [CallObjectFromRaw document]. rewrite object_from_raw_run.
  split; [reflexivity|]. intros r [Heq|[]]. discriminate.
Qed.

Lemma quiet_log_response_object (document : JSON) :
  quiet (log_response_object document).
Proof. apply quiet_succeed. Qed.

Lemma sends__request (self : _NetworkClient) (m : Method) (u : URL)
    (h : option (list (string * string))) (b : option _BytesProducer) :
  sends (mkRequest m u h b) (_request self m u h b).
Proof.
  intros log. exists []. rewrite _request_run. split; [reflexivity|].
  intros r [].
Qed.

Lemma stateless__request (self : _NetworkClient) (m : Method) (u : URL)
    (h : option (list (string * string))) (b : option _BytesProducer) :
  stateless (_request self m u h b).
Proof. intros log. unfold result, calls. now rewrite !_request_run. Qed.

Lemma stateless_loads (raw : bytes) : stateless (loads raw).
Proof. intros log. unfold result, calls. now rewrite !loads_run. Qed.

Lemma stateless_object_from_raw (document : JSON) :
  stateless (object_from_raw document).
Proof. intros log. unfold result, calls. now rewrite !object_from_raw_run. Qed.

Lemma stateless_log_response_object (document : JSON) :
  stateless (log_response_object document).
Proof. apply stateless_succeed. Qed.

#[local] Hint Resolve quiet_loads quiet_object_from_raw
  quiet_log_response_object sends__request : deferred.
#[local] Hint Resolve stateless__request stateless_loads
  stateless_object_from_raw stateless_log_response_object : deferred.

(** Unfolds an operation down to its chain of callbacks. *)
Ltac chain :=
  unfold create, get, delete, list_, _get, _delete, _post; cbv zeta.

(** Settles [sends] of a chain of callbacks, from the last one added. *)
Ltac trace_stages :=
  first [ apply sends__request
        | apply sends_addCallback; [trace_stages | intros ?; auto with deferred] ].

Ltac trace_chain := chain; unfold request_to; cbn [option_map]; trace_stages.

(** Settles [stateless] of a chain of callbacks. *)
Ltac stateless_stages :=
  first [ apply stateless__request
        | apply stateless_addCallback;
          [stateless_stages | intros ?; auto with deferred] ].

Ltac stateless_chain := chain; stateless_stages.

Lemma sends_create (self : _NetworkClient) (obj : IObject) :
  sends (request_to self POST (collection_location (Instance obj))
                    (Some (dumps (to_raw obj))))
        (create self obj).
Proof. trace_chain. Qed.

Lemma sends_get (self : _NetworkClient) (obj : IObject) :
  sends (request_to self GET (object_location obj) None) (get self obj).
Proof. trace_chain. Qed.

Lemma sends_delete (self : _NetworkClient) (obj : IObject) :
  sends (request_to self DELETE (object_location obj) None) (delete self obj).
Proof. trace_chain. Qed.

Lemma sends_list_ (self : _NetworkClient) (kind : Resource) :
  sends (request_to self GET (collection_location kind) None) (list_ self kind).
Proof. trace_chain. Qed.

Lemma stateless_create (self : _NetworkClient) (obj : IObject) :
  stateless (create self obj).
Proof. stateless_chain. Qed.

Lemma stateless_get (self : _NetworkClient) (obj : IObject) :
  stateless (get self obj).
Proof. stateless_chain. Qed.

Lemma stateless_delete (self : _NetworkClient) (obj : IObject) :
  stateless (delete self obj).
Proof. stateless_chain. Qed.

Lemma stateless_list_ (self : _NetworkClient) (kind : Resource) :
  stateless (list_ self kind).
Proof. stateless_chain. Qed.

(** Brings the request of a hypothesis into the form it has in a chain. *)
Ltac answered Hanswer :=
  unfold request_to in Hanswer; cbn [option_map] in Hanswer;
  chain; unfold addCallback; rewrite _request_run, Hanswer.

Lemma created_is_expected (response : Response) :
  In (code response) [CREATED] <-> code response = CREATED.
Proof. cbn. intuition congruence. Qed.

Lemma ok_is_expected (response : Response) :
  In (code response) [OK] <-> code response = OK.
Proof. cbn. intuition congruence. Qed.

(** C3: [create] expects the status 201 and no other.  When the server
    answers with another status, 200 included, the result is never a
    decoded object: it is the [KubernetesError] made from the response, and
    nothing of the body is parsed or decoded.  When it answers 201 the body
    is parsed and decoded. *)
Theorem create_expects_created (self : _NetworkClient) (obj : IObject)
    (response : Response) (log : list Call) :
  request (agent self)
          (request_to self POST (collection_location (Instance obj))
                      (Some (dumps (to_raw obj)))) = Ok response ->
  (code response <> CREATED ->
   (forall decoded, fst (create self obj log) <> Ok decoded) /\
   (forall raw, delivery response = Delivered raw ->
      create self obj log =
      (Err (ServerError (mkKubernetesError (code response) raw)),
       log ++ [CallRequest
                 (request_to self POST (collection_location (Instance obj))
                             (Some (dumps (to_raw obj))));
               CallFromResponse response]))) /\
  (code response = CREATED ->
   forall raw document decoded,
     delivery response = Delivered raw ->
     json_loads raw = Some document ->
     model_object_from_raw document = Some decoded ->
     fst (create self obj log) = Ok decoded).
Proof.
  intros Hanswer. split.
  - intros Hcode.
    assert (Hout : ~ In (code response) [CREATED])
      by now rewrite created_is_expected.
    answered Hanswer. rewrite check_status_unexpected by assumption.
    split.
    + intros decoded. destruct (delivery response); discriminate.
    + intros raw ->. unfold request_to. cbn [option_map].
      now rewrite <- app_assoc.
  - intros Hcode raw document decoded Hraw Hdoc Hdec.
    answered Hanswer.
    rewrite check_status_expected by now apply created_is_expected.
    rewrite readBody_run, Hraw, loads_run, Hdoc.
    unfold log_response_object, succeed.
    now rewrite object_from_raw_run, Hdec.
Qed.

(** C5: when the response to [delete] has the status 200, the result is
    [None], whatever the body holds: the body is read, and nothing else is
    done with it. *)
Theorem delete_completes (self : _NetworkClient) (obj : IObject)
    (response : Response) (raw : bytes) (log : list Call) :
  request (agent self) (request_to self DELETE (object_location obj) None) =
    Ok response ->
  code response = OK ->
  delivery response = Delivered raw ->
  delete self obj log =
  (Ok tt,
   log ++ [CallRequest (request_to self DELETE (object_location obj) None);
           CallReadBody response]).
Proof.
  intros Hanswer Hcode Hraw. answered Hanswer.
  rewrite check_status_expected by now apply ok_is_expected.
  rewrite readBody_run, Hraw. unfold succeed, request_to. cbn [option_map].
  now rewrite <- app_assoc.
Qed.

(** C10: when the response to [delete] has an expected status, the
    operation succeeds on every body, also on one that is not JSON; it
    never fails with a [DecodeError], since [loads] is never called: the
    body is read and dropped. *)
Theorem delete_never_decodes (self : _NetworkClient) (obj : IObject)
    (response : Response) (log : list Call) :
  request (agent self) (request_to self DELETE (object_location obj) None) =
    Ok response ->
  In (code response) [OK] ->
  (forall raw, delivery response = Delivered raw ->
     fst (delete self obj log) = Ok tt) /\
  (forall raw, delivery response = Delivered raw -> json_loads raw = None ->
     fst (delete self obj log) = Ok tt) /\
  (forall raw, fst (delete self obj log) <> Err (DecodeError raw)) /\
  snd (delete self obj log) =
    log ++ [CallRequest (request_to self DELETE (object_location obj) None);
            CallReadBody response] /\
  (forall raw, ~ In (CallLoads raw) (calls (delete self obj))).
Proof.
  intros Hanswer Hcode.
  assert (Hrun : delete self obj log =
    (match delivery response with
     | Delivered _ => Ok tt
     | Lost why => Err (BodyReadFailed why)
     end,
     log ++ [CallRequest (request_to self DELETE (object_location obj) None);
             CallReadBody response])).
  { pose proof Hanswer as Hanswer'. answered Hanswer'.
    rewrite check_status_expected by assumption.
    rewrite readBody_run. unfold succeed, request_to. cbn [option_map].
    rewrite <- app_assoc. now destruct (delivery response). }
  assert (Hcalls : calls (delete self obj) =
    [CallRequest (request_to self DELETE (object_location obj) None);
     CallReadBody response]).
  { pose proof (stateless_delete self obj log) as Hlog.
    rewrite Hrun in Hlog. injection Hlog as _ Hlog.
    now apply app_inv_head in Hlog. }
  rewrite Hrun. cbn [fst snd]. repeat split.
  - now intros raw ->.
  - now intros raw -> _.
  - intros raw. destruct (delivery response); discriminate.
  - rewrite Hcalls. intros raw [Heq|[Heq|[]]]; discriminate.
Qed.

Lemma child_segments (u : URL) (segments : list string) :
  exists parent, forall more, path (child u more) = parent ++ more.
Proof.
  unfold child. destruct (rev (path u)) as [|[|c s] before];
    eexists; intros more; reflexivity.
Qed.

Lemma child_inj (u : URL) (segments segments' : list string) :
  child u segments = child u segments' -> segments = segments'.
Proof.
  intros Heq. destruct (child_segments u segments) as (parent & Hpath).
  apply (f_equal path) in Heq. rewrite !Hpath in Heq.
  now apply app_inv_head in Heq.
Qed.

(** C6: for a descriptor that is no [IObject] instance, [list] asks for
    the collection outside of any namespace, [("api", "v1", kind.lower() +
    "s")] below the base URL: that one request and no other, and never a
    path in a namespace. *)
Theorem list_of_type_is_cluster_wide (self : _NetworkClient)
    (descriptor : Resource) :
  IObject_providedBy descriptor = false ->
  collection_location descriptor =
    ["api"; "v1"; (lower (kind descriptor) ++ "s")%string] /\
  sends (request_to self GET
           ["api"; "v1"; (lower (kind descriptor) ++ "s")%string] None)
        (list_ self descriptor) /\
  (forall ns,
     collection_location descriptor <>
       ["api"; "v1"; "namespaces"; ns;
        (lower (kind descriptor) ++ "s")%string] /\
     ~ sends (request_to self GET
                ["api"; "v1"; "namespaces"; ns;
                 (lower (kind descriptor) ++ "s")%string] None)
             (list_ self descriptor)).
Proof.
  destruct descriptor as [o|k]; [discriminate|]. intros _.
  pose proof (sends_list_ self (KindType k)) as Hsends.
  rewrite collection_location_type in *. unfold cluster_path in *. cbn [kind].
  split; [reflexivity|]. split; [exact Hsends|].
  intros ns. split; [discriminate|].
  intros Hother.
  destruct (Hsends []) as (rest & Hlog & _).
  destruct (Hother []) as (rest' & Hlog' & _).
  rewrite Hlog in Hlog'. cbn [app] in Hlog'.
  assert (Hurl : child (base_url (kubernetes self))
                       ["api"; "v1"; (lower k ++ "s")%string] =
                 child (base_url (kubernetes self))
                       ["api"; "v1"; "namespaces"; ns; (lower k ++ "s")%string])
    by (unfold request_to in Hlog'; congruence).
  apply child_inj in Hurl. discriminate.
Qed.

(** C7: the request of [create] is a POST whose body producer holds the
    bytes [dumps(obj.to_raw())]; the length it declares is the number of
    those bytes, and it writes them to its consumer in one piece. *)
Theorem create_sends_serialized_object (self : _NetworkClient) (obj : IObject) :
  exists producer,
    sends (mkRequest POST
             (child (base_url (kubernetes self))
                    (collection_location (Instance obj)))
             None (Some producer))
          (create self obj) /\
    _data producer = dumps (to_raw obj) /\
    _BytesProducer_length producer = List.length (dumps (to_raw obj)) /\
    forall consumer,
      _BytesProducer_startProducing producer consumer =
      consumer ++ [dumps (to_raw obj)].
Proof.
  exists (mk_BytesProducer (dumps (to_raw obj))).
  split; [exact (sends_create self obj)|]. now repeat split.
Qed.

Lemma object_location_identity (o1 o2 : IObject) :
  obj_kind o1 = obj_kind o2 ->
  namespace (metadata o1) = namespace (metadata o2) ->
  name (metadata o1) = name (metadata o2) ->
  object_location o1 = object_location o2.
Proof.
  intros Hkind Hnamespace Hname. unfold object_location.
  now rewrite !collection_location_instance, Hkind, Hnamespace, Hname.
Qed.

(** C8: [get] looks at the kind, the namespace and the name of its
    argument only.  For two objects that agree on these, it asks for the
    same URL, and it has the same outcome whenever the two requests are
    answered alike. *)
Theorem get_depends_on_identity (self self' : _NetworkClient)
    (o1 o2 : IObject) :
  obj_kind o1 = obj_kind o2 ->
  namespace (metadata o1) = namespace (metadata o2) ->
  name (metadata o1) = name (metadata o2) ->
  object_location o1 = object_location o2 /\
  sends (request_to self GET (object_location o1) None) (get self o1) /\
  sends (request_to self GET (object_location o1) None) (get self o2) /\
  get self o1 = get self o2 /\
  (base_url (kubernetes self) = base_url (kubernetes self') ->
   request (agent self) (request_to self GET (object_location o1) None) =
   request (agent self') (request_to self' GET (object_location o2) None) ->
   forall log, get self o1 log = get self' o2 log).
Proof.
  intros Hkind Hnamespace Hname.
  pose proof (object_location_identity o1 o2 Hkind Hnamespace Hname) as Hloc.
  split; [exact Hloc|]. split; [apply sends_get|].
  split; [rewrite Hloc; apply sends_get|].
  split; [unfold get; now rewrite Hloc|].
  intros Hbase Hanswer log. unfold request_to in Hanswer.
  cbn [option_map] in Hanswer. chain. unfold addCallback.
  now rewrite !_request_run, Hanswer, Hloc, Hbase.
Qed.

End Operations.

(** ** The operations on the in-memory double *)

Lemma create_expects_created_witness :
  @create Fake.collaborators Runs.ok_instead_of_created Fake.pod [] =
  (Err (ServerError (mkKubernetesError 200 Runs.echo)),
   [CallRequest
      (mkRequest POST
         (mkURL "https://kube.example:443"
                ["api"; "v1"; "namespaces"; "ns1"; "pods"])
         None (Some (mk_BytesProducer Runs.echo)));
    CallFromResponse (mkResponse 200 (Delivered Runs.echo))]).
Proof.
  refine (proj2 (proj1 (@create_expects_created Fake.collaborators
                          Runs.ok_instead_of_created Fake.pod
                          (mkResponse 200 (Delivered Runs.echo)) []
                          eq_refl) _) Runs.echo eq_refl).
  cbn. discriminate.
Defined.

Lemma delete_completes_witness :
  delete Runs.ok_with_garbage Fake.pod [] =
  (Ok tt,
   [CallRequest
      (mkRequest DELETE
         (mkURL "https://kube.example:443"
                ["api"; "v1"; "namespaces"; "ns1"; "pods"; "p1"])
         None None);
    CallReadBody (mkResponse 200 (Delivered Fake.garbage))]).
Proof.
  exact (delete_completes Runs.ok_with_garbage Fake.pod
           (mkResponse 200 (Delivered Fake.garbage)) Fake.garbage []
           eq_refl eq_refl eq_refl).
Defined.

Lemma delete_never_decodes_witness :
  @json_loads Fake.collaborators Fake.garbage = None /\
  fst (delete Runs.ok_with_garbage Fake.pod []) = Ok tt.
Proof.
  split; [reflexivity|].
  refine (proj1 (proj2 (@delete_never_decodes Fake.collaborators
                          Runs.ok_with_garbage Fake.pod
                          (mkResponse 200 (Delivered Fake.garbage)) []
                          eq_refl _)) Fake.garbage eq_refl eq_refl).
  left. reflexivity.
Defined.

Lemma list_of_type_is_cluster_wide_witness :
  collection_location (KindType "Pod") = ["api"; "v1"; "pods"] /\
  sends (mkRequest GET
           (mkURL "https://kube.example:443" ["api"; "v1"; "pods"]) None None)
        (@list_ Fake.collaborators Runs.ok_with_garbage (KindType "Pod")).
Proof.
  pose proof (@list_of_type_is_cluster_wide Fake.collaborators
                Runs.ok_with_garbage (KindType "Pod") eq_refl)
    as (Hpath & Hsends & _).
  split; [exact Hpath | exact Hsends].
Defined.

Lemma get_depends_on_identity_witness :
  Fake.pod <> Fake.pod' /\
  object_location Fake.pod = object_location Fake.pod' /\
  @get Fake.collaborators Runs.ok_with_garbage Fake.pod =
  @get Fake.collaborators Runs.ok_with_garbage Fake.pod'.
Proof.
  split; [discriminate|].
  pose proof (@get_depends_on_identity Fake.collaborators
                Runs.ok_with_garbage Runs.ok_with_garbage Fake.pod Fake.pod'
                eq_refl eq_refl eq_refl)
    as (Hloc & _ & _ & Hget & _).
  split; [exact Hloc | exact Hget].
Defined.

(** ** The scenarios of the specification, run on the in-memory double *)

Example create_pod_scenario :
  result (@create Fake.collaborators
            (client (Fake.cluster
                       (Fake.answering (mkResponse 201 (Delivered Runs.echo)))))
            Fake.pod) =
  Ok (DecodedObject Fake.pod).
Proof. reflexivity. Qed.

Example get_missing_pod_scenario :
  result (@get Fake.collaborators
            (client (Fake.cluster
                       (Fake.answering
                          (mkResponse 404 (Delivered Fake.garbage)))))
            Fake.pod) =
  Err (ServerError (mkKubernetesError 404 Fake.garbage)).
Proof. reflexivity. Qed.

Example get_garbage_scenario :
  result (@get Fake.collaborators Runs.ok_with_garbage Fake.pod) =
  Err (DecodeError Fake.garbage).
Proof. reflexivity. Qed.

Example list_pods_scenario :
  @list_ Fake.collaborators
    (client (Fake.cluster
               (Fake.answering
                  (mkResponse 200
                     (Delivered (@dumps Fake.collaborators Fake.pods))))))
    (KindType "Pod") [] =
  (Ok (DecodedCollection [Fake.pod]),
   [CallRequest
      (mkRequest GET
         (mkURL "https://kube.example:443" ["api"; "v1"; "pods"]) None None);
    CallReadBody
      (mkResponse 200 (Delivered (@dumps Fake.collaborators Fake.pods)));
    CallLoads (@dumps Fake.collaborators Fake.pods);
    CallObjectFromRaw Fake.pods]).
Proof. reflexivity. Qed.

Example unreachable_scenario :
  result (delete (client (Fake.cluster Fake.unreachable)) Fake.pod) =
  Err (ConnectionFailed "connection refused").
Proof. reflexivity. Qed.

Example broken_transfer_scenario :
  result (delete (client (Fake.cluster
                            (Fake.answering (mkResponse 200 (Lost "reset")))))
                 Fake.pod) =
  Err (BodyReadFailed "reset").
Proof. reflexivity. Qed.

(** ** What the operations make of an answer *)

Section Answers.

Context `{Collaborators}.

(** Unfolds an operation and runs its request. *)
Ltac run_request :=
  unfold create, get, delete, list_, _get, _delete, _post, request_to;
  cbv zeta; cbn [option_map]; unfold addCallback; rewrite _request_run.

(** Runs the callbacks that come after the request, by cases. *)
Ltac run_callbacks :=
  repeat first
    [ rewrite readBody_run | rewrite loads_run | rewrite object_from_raw_run
    | rewrite from_response_run
    | progress unfold check_status, log_response_object, succeed, fail,
               addCallback
    | progress cbn [negb fst snd]
    | match goal with
      | |- context [match ?x with _ => _ end] =>
          lazymatch x with
          | delivery _ => destruct x
          | json_loads _ => destruct x
          | model_object_from_raw _ => destruct x
          | existsb _ _ => destruct x
          end
      end ];
  rewrite <- ?app_assoc; try reflexivity.

Lemma create_run (self : _NetworkClient) (obj : IObject) (log : list Call) :
  let rq := request_to self POST (collection_location (Instance obj))
                       (Some (dumps (to_raw obj))) in
  create self obj log =
  (fst (handled [CREATED] (request (agent self) rq)),
   log ++ CallRequest rq :: snd (handled [CREATED] (request (agent self) rq))).
Proof.
  intros rq. subst rq. run_request. unfold handled, request_to.
  cbn [option_map]. destruct (request (agent self) _) as [response|f];
    [|reflexivity].
  run_callbacks.
Qed.

Lemma get_run (self : _NetworkClient) (obj : IObject) (log : list Call) :
  let rq := request_to self GET (object_location obj) None in
  get self obj log =
  (fst (handled [OK] (request (agent self) rq)),
   log ++ CallRequest rq :: snd (handled [OK] (request (agent self) rq))).
Proof.
  intros rq. subst rq. run_request. unfold handled, request_to.
  cbn [option_map]. destruct (request (agent self) _) as [response|f];
    [|reflexivity].
  run_callbacks.
Qed.

Lemma list__run (self : _NetworkClient) (kind : Resource) (log : list Call) :
  let rq := request_to self GET (collection_location kind) None in
  list_ self kind log =
  (fst (handled [OK] (request (agent self) rq)),
   log ++ CallRequest rq :: snd (handled [OK] (request (agent self) rq))).
Proof.
  intros rq. subst rq. run_request. unfold handled, request_to.
  cbn [option_map]. destruct (request (agent self) _) as [response|f];
    [|reflexivity].
  run_callbacks.
Qed.

Lemma delete_run (self : _NetworkClient) (obj : IObject) (log : list Call) :
  let rq := request_to self DELETE (object_location obj) None in
  delete self obj log =
  (fst (drained (request (agent self) rq)),
   log ++ CallRequest rq :: snd (drained (request (agent self) rq))).
Proof.
  intros rq. subst rq. run_request. unfold drained, request_to.
  cbn [option_map]. destruct (request (agent self) _) as [response|f];
    [|reflexivity].
  run_callbacks.
Qed.

Lemma handled_ok_iff (expected : list Z) (answer : Outcome Response)
    (decoded : Decoded) :
  fst (handled expected answer) = Ok decoded <->
  exists response raw document,
    answer = Ok response /\ In (code response) expected /\
    delivery response = Delivered raw /\
    json_loads raw = Some document /\
    model_object_from_raw document = Some decoded.
Proof.
  split.
  - destruct answer as [response|f]; [|discriminate]. unfold handled.
    destruct (existsb _ expected) eqn:Hin.
    + apply code_in_expected in Hin.
      destruct (delivery response) as [raw|why] eqn:Hraw; [|discriminate].
      destruct (json_loads raw) as [document|] eqn:Hdoc; [|discriminate].
      destruct (model_object_from_raw document) as [d|] eqn:Hdec;
        [|discriminate].
      cbn. intros [= ->]. now exists response, raw, document.
    + cbn. destruct (delivery response); discriminate.
  - intros (response & raw & document & -> & Hin & Hraw & Hdoc & Hdec).
    apply code_in_expected in Hin. unfold handled.
    now rewrite Hin, Hraw, Hdoc, Hdec.
Qed.

Lemma drained_ok_iff (answer : Outcome Response) :
  fst (drained answer) = Ok tt <->
  exists response raw,
    answer = Ok response /\ code response = OK /\
    delivery response = Delivered raw.
Proof.
  split.
  - destruct answer as [response|f]; [|discriminate]. unfold drained.
    destruct (existsb _ [OK]) eqn:Hin.
    + apply code_in_expected, ok_is_expected in Hin.
      destruct (delivery response) as [raw|why] eqn:Hraw; [|discriminate].
      intros _. now exists response, raw.
    + cbn. destruct (delivery response); discriminate.
  - intros (response & raw & -> & Hcode & Hraw).
    apply ok_is_expected, code_in_expected in Hcode. unfold drained.
    now rewrite Hcode, Hraw.
Qed.

Lemma handled_unexpected (expected : list Z) (response : Response) :
  ~ In (code response) expected ->
  handled expected (Ok response) =
  (match delivery response with
   | Delivered raw => Err (ServerError (mkKubernetesError (code response) raw))
   | Lost why => Err (BodyReadFailed why)
   end, [CallFromResponse response]).
Proof.
  intros Hout. unfold handled.
  destruct (existsb _ expected) eqn:Hin; [|reflexivity].
  apply code_in_expected in Hin. contradiction.
Qed.

Lemma handled_expected (expected : list Z) (response : Response) :
  In (code response) expected ->
  handled expected (Ok response) =
  match delivery response with
  | Lost why => (Err (BodyReadFailed why), [CallReadBody response])
  | Delivered raw =>
      match json_loads raw with
      | None => (Err (DecodeError raw), [CallReadBody response; CallLoads raw])
      | Some document =>
          (match model_object_from_raw document with
           | Some decoded => Ok decoded
           | None => Err (SchemaError document)
           end,
           [CallReadBody response; CallLoads raw; CallObjectFromRaw document])
      end
  end.
Proof.
  intros Hin. apply code_in_expected in Hin. unfold handled. now rewrite Hin.
Qed.

(** X1: when the agent fails a request, each of the four operations ends
    with that very failure, and has made no call but the request. *)
Theorem connection_failure_propagates (self : _NetworkClient) (obj : IObject)
    (descriptor : Resource) (f : Failure) (log : list Call) :
  (request (agent self)
     (request_to self POST (collection_location (Instance obj))
                 (Some (dumps (to_raw obj)))) = Err f ->
   create self obj log =
   (Err f,
    log ++ [CallRequest
              (request_to self POST (collection_location (Instance obj))
                          (Some (dumps (to_raw obj))))])) /\
  (request (agent self) (request_to self GET (object_location obj) None) =
     Err f ->
   get self obj log =
   (Err f,
    log ++ [CallRequest (request_to self GET (object_location obj) None)])) /\
  (request (agent self) (request_to self DELETE (object_location obj) None) =
     Err f ->
   delete self obj log =
   (Err f,
    log ++ [CallRequest (request_to self DELETE (object_location obj) None)]))
  /\
  (request (agent self)
     (request_to self GET (collection_location descriptor) None) = Err f ->
   list_ self descriptor log =
   (Err f,
    log ++ [CallRequest
              (request_to self GET (collection_location descriptor) None)])).
Proof.
  split; [|split; [|split]]; intros Hanswer.
  - pose proof (create_run self obj log) as Hrun. cbv zeta in Hrun.
    now rewrite Hrun, Hanswer.
  - pose proof (get_run self obj log) as Hrun. cbv zeta in Hrun.
    now rewrite Hrun, Hanswer.
  - pose proof (delete_run self obj log) as Hrun. cbv zeta in Hrun.
    now rewrite Hrun, Hanswer.
  - pose proof (list__run self descriptor log) as Hrun. cbv zeta in Hrun.
    now rewrite Hrun, Hanswer.
Qed.

(** X2: [create], [get] and [list] result in a decoded object exactly when
    the agent answers with the expected status (201 for [create], 200 for
    the others), the body arrives, [loads] parses it, and
    [object_from_raw] accepts the document; the result is then what
    [object_from_raw] made of it. *)
Theorem decoding_succeeds_iff (self : _NetworkClient) (obj : IObject)
    (descriptor : Resource) (decoded : Decoded) (log : list Call) :
  (fst (create self obj log) = Ok decoded <->
   exists response raw document,
     request (agent self)
       (request_to self POST (collection_location (Instance obj))
                   (Some (dumps (to_raw obj)))) = Ok response /\
     code response = CREATED /\ delivery response = Delivered raw /\
     json_loads raw = Some document /\
     model_object_from_raw document = Some decoded) /\
  (fst (get self obj log) = Ok decoded <->
   exists response raw document,
     request (agent self) (request_to self GET (object_location obj) None) =
       Ok response /\
     code response = OK /\ delivery response = Delivered raw /\
     json_loads raw = Some document /\
     model_object_from_raw document = Some decoded) /\
  (fst (list_ self descriptor log) = Ok decoded <->
   exists response raw document,
     request (agent self)
       (request_to self GET (collection_location descriptor) None) =
       Ok response /\
     code response = OK /\ delivery response = Delivered raw /\
     json_loads raw = Some document /\
     model_object_from_raw document = Some decoded).
Proof.
  split; [|split].
  - pose proof (create_run self obj log) as Hrun. cbv zeta in Hrun.
    rewrite Hrun. cbn [fst]. rewrite handled_ok_iff.
    split; intros (response & raw & document & Hanswer & Hcode & Hrest);
      exists response, raw, document;
      (split; [exact Hanswer|]); (split; [|exact Hrest]);
      now apply created_is_expected.
  - pose proof (get_run self obj log) as Hrun. cbv zeta in Hrun.
    rewrite Hrun. cbn [fst]. rewrite handled_ok_iff.
    split; intros (response & raw & document & Hanswer & Hcode & Hrest);
      exists response, raw, document;
      (split; [exact Hanswer|]); (split; [|exact Hrest]);
      now apply ok_is_expected.
  - pose proof (list__run self descriptor log) as Hrun. cbv zeta in Hrun.
    rewrite Hrun. cbn [fst]. rewrite handled_ok_iff.
    split; intros (response & raw & document & Hanswer & Hcode & Hrest);
      exists response, raw, document;
      (split; [exact Hanswer|]); (split; [|exact Hrest]);
      now apply ok_is_expected.
Qed.

(** X3: [delete] completes exactly when the agent answers with the status
    200 and the body of the response arrives. *)
Theorem delete_succeeds_iff (self : _NetworkClient) (obj : IObject)
    (log : list Call) :
  fst (delete self obj log) = Ok tt <->
  exists response raw,
    request (agent self) (request_to self DELETE (object_location obj) None) =
      Ok response /\
    code response = OK /\ delivery response = Delivered raw.
Proof.
  pose proof (delete_run self obj log) as Hrun. cbv zeta in Hrun.
  rewrite Hrun. cbn [fst]. apply drained_ok_iff.
Qed.

(** X4: [get], [delete] and [list] take the status 200 and nothing else
    for a success: with any other status, 201 or 204 included, the result
    is a failure, the error made from the response when its body arrives,
    and the body is neither read as a result nor parsed. *)
Theorem other_status_is_failure (self : _NetworkClient) (obj : IObject)
    (descriptor : Resource) (response : Response) (log : list Call) :
  code response <> OK ->
  (request (agent self) (request_to self GET (object_location obj) None) =
     Ok response ->
   exists f,
     get self obj log =
     (Err f,
      log ++ [CallRequest (request_to self GET (object_location obj) None);
              CallFromResponse response]) /\
     forall raw, delivery response = Delivered raw ->
       f = ServerError (mkKubernetesError (code response) raw)) /\
  (request (agent self) (request_to self DELETE (object_location obj) None) =
     Ok response ->
   exists f,
     delete self obj log =
     (Err f,
      log ++ [CallRequest (request_to self DELETE (object_location obj) None);
              CallFromResponse response]) /\
     forall raw, delivery response = Delivered raw ->
       f = ServerError (mkKubernetesError (code response) raw)) /\
  (request (agent self)
     (request_to self GET (collection_location descriptor) None) =
     Ok response ->
   exists f,
     list_ self descriptor log =
     (Err f,
      log ++ [CallRequest
                (request_to self GET (collection_location descriptor) None);
              CallFromResponse response]) /\
     forall raw, delivery response = Delivered raw ->
       f = ServerError (mkKubernetesError (code response) raw)).
Proof.
  intros Hcode.
  assert (Hout : ~ In (code response) [OK]) by now rewrite ok_is_expected.
  split; [|split]; intros Hanswer.
  - pose proof (get_run self obj log) as Hrun. cbv zeta in Hrun.
    rewrite Hrun, Hanswer, handled_unexpected by assumption. cbn [fst snd].
    destruct (delivery response) as [raw|why]; eexists;
      (split; [reflexivity|]); intros raw' Hraw; congruence.
  - pose proof (delete_run self obj log) as Hrun. cbv zeta in Hrun.
    rewrite Hrun, Hanswer. unfold drained.
    destruct (existsb _ [OK]) eqn:Hin;
      [apply code_in_expected in Hin; contradiction|]. cbn [fst snd].
    destruct (delivery response) as [raw|why]; eexists;
      (split; [reflexivity|]); intros raw' Hraw; congruence.
  - pose proof (list__run self descriptor log) as Hrun. cbv zeta in Hrun.
    rewrite Hrun, Hanswer, handled_unexpected by assumption. cbn [fst snd].
    destruct (delivery response) as [raw|why]; eexists;
      (split; [reflexivity|]); intros raw' Hraw; congruence.
Qed.

(** X5: when the body of a response with the expected status is not JSON,
    [create], [get] and [list] fail with the [DecodeError] of that body,
    and [object_from_raw] is not called. *)
Theorem invalid_json_is_decode_error (self : _NetworkClient) (obj : IObject)
    (descriptor : Resource) (response : Response) (raw : bytes)
    (log : list Call) :
  delivery response = Delivered raw ->
  json_loads raw = None ->
  (request (agent self)
     (request_to self POST (collection_location (Instance obj))
                 (Some (dumps (to_raw obj)))) = Ok response ->
   code response = CREATED ->
   create self obj log =
   (Err (DecodeError raw),
    log ++ [CallRequest
              (request_to self POST (collection_location (Instance obj))
                          (Some (dumps (to_raw obj))));
            CallReadBody response; CallLoads raw])) /\
  (request (agent self) (request_to self GET (object_location obj) None) =
     Ok response ->
   code response = OK ->
   get self obj log =
   (Err (DecodeError raw),
    log ++ [CallRequest (request_to self GET (object_location obj) None);
            CallReadBody response; CallLoads raw])) /\
  (request (agent self)
     (request_to self GET (collection_location descriptor) None) =
     Ok response ->
   code response = OK ->
   list_ self descriptor log =
   (Err (DecodeError raw),
    log ++ [CallRequest
              (request_to self GET (collection_location descriptor) None);
            CallReadBody response; CallLoads raw])).
Proof.
  intros Hraw Hdoc. split; [|split]; intros Hanswer Hcode.
  - pose proof (create_run self obj log) as Hrun. cbv zeta in Hrun.
    rewrite Hrun, Hanswer, handled_expected
      by now apply created_is_expected.
    now rewrite Hraw, Hdoc.
  - pose proof (get_run self obj log) as Hrun. cbv zeta in Hrun.
    rewrite Hrun, Hanswer, handled_expected by now apply ok_is_expected.
    now rewrite Hraw, Hdoc.
  - pose proof (list__run self descriptor log) as Hrun. cbv zeta in Hrun.
    rewrite Hrun, Hanswer, handled_expected by now apply ok_is_expected.
    now rewrite Hraw, Hdoc.
Qed.

(** X6: when the body of a response with the expected status is JSON that
    [object_from_raw] rejects, [create], [get] and [list] fail with that
    failure, after the body was read, parsed and handed over. *)
Theorem rejected_document_is_schema_error (self : _NetworkClient)
    (obj : IObject) (descriptor : Resource) (response : Response)
    (raw : bytes) (document : JSON) (log : list Call) :
  delivery response = Delivered raw ->
  json_loads raw = Some document ->
  model_object_from_raw document = None ->
  (request (agent self)
     (request_to self POST (collection_location (Instance obj))
                 (Some (dumps (to_raw obj)))) = Ok response ->
   code response = CREATED ->
   create self obj log =
   (Err (SchemaError document),
    log ++ [CallRequest
              (request_to self POST (collection_location (Instance obj))
                          (Some (dumps (to_raw obj))));
            CallReadBody response; CallLoads raw;
            CallObjectFromRaw document])) /\
  (request (agent self) (request_to self GET (object_location obj) None) =
     Ok response ->
   code response = OK ->
   get self obj log =
   (Err (SchemaError document),
    log ++ [CallRequest (request_to self GET (object_location obj) None);
            CallReadBody response; CallLoads raw;
            CallObjectFromRaw document])) /\
  (request (agent self)
     (request_to self GET (collection_location descriptor) None) =
     Ok response ->
   code response = OK ->
   list_ self descriptor log =
   (Err (SchemaError document),
    log ++ [CallRequest
              (request_to self GET (collection_location descriptor) None);
            CallReadBody response; CallLoads raw;
            CallObjectFromRaw document])).
Proof.
  intros Hraw Hdoc Hdec. split; [|split]; intros Hanswer Hcode.
  - pose proof (create_run self obj log) as Hrun. cbv zeta in Hrun.
    rewrite Hrun, Hanswer, handled_expected
      by now apply created_is_expected.
    now rewrite Hraw, Hdoc, Hdec.
  - pose proof (get_run self obj log) as Hrun. cbv zeta in Hrun.
    rewrite Hrun, Hanswer, handled_expected by now apply ok_is_expected.
    now rewrite Hraw, Hdoc, Hdec.
  - pose proof (list__run self descriptor log) as Hrun. cbv zeta in Hrun.
    rewrite Hrun, Hanswer, handled_expected by now apply ok_is_expected.
    now rewrite Hraw, Hdoc, Hdec.
Qed.

(** X7: when the transfer of the body breaks off after an expected status,
    the operation fails with the failure of the read, [delete] as well, and
    nothing is parsed. *)
Theorem broken_transfer_fails (self : _NetworkClient) (obj : IObject)
    (descriptor : Resource) (response : Response) (why : string)
    (log : list Call) :
  delivery response = Lost why ->
  (request (agent self)
     (request_to self POST (collection_location (Instance obj))
                 (Some (dumps (to_raw obj)))) = Ok response ->
   code response = CREATED ->
   create self obj log =
   (Err (BodyReadFailed why),
    log ++ [CallRequest
              (request_to self POST (collection_location (Instance obj))
                          (Some (dumps (to_raw obj))));
            CallReadBody response])) /\
  (request (agent self) (request_to self GET (object_location obj) None) =
     Ok response ->
   code response = OK ->
   get self obj log =
   (Err (BodyReadFailed why),
    log ++ [CallRequest (request_to self GET (object_location obj) None);
            CallReadBody response])) /\
  (request (agent self) (request_to self DELETE (object_location obj) None) =
     Ok response ->
   code response = OK ->
   delete self obj log =
   (Err (BodyReadFailed why),
    log ++ [CallRequest (request_to self DELETE (object_location obj) None);
            CallReadBody response])) /\
  (request (agent self)
     (request_to self GET (collection_location descriptor) None) =
     Ok response ->
   code response = OK ->
   list_ self descriptor log =
   (Err (BodyReadFailed why),
    log ++ [CallRequest
              (request_to self GET (collection_location descriptor) None);
            CallReadBody response])).
Proof.
  intros Hraw. split; [|split; [|split]]; intros Hanswer Hcode.
  - pose proof (create_run self obj log) as Hrun. cbv zeta in Hrun.
    rewrite Hrun, Hanswer, handled_expected
      by now apply created_is_expected.
    now rewrite Hraw.
  - pose proof (get_run self obj log) as Hrun. cbv zeta in Hrun.
    rewrite Hrun, Hanswer, handled_expected by now apply ok_is_expected.
    now rewrite Hraw.
  - pose proof (delete_run self obj log) as Hrun. cbv zeta in Hrun.
    rewrite Hrun, Hanswer. unfold drained.
    apply ok_is_expected, code_in_expected in Hcode.
    now rewrite Hcode, Hraw.
  - pose proof (list__run self descriptor log) as Hrun. cbv zeta in Hrun.
    rewrite Hrun, Hanswer, handled_expected by now apply ok_is_expected.
    now rewrite Hraw.
Qed.

Lemma handled_makes_no_request (expected : list Z) (answer : Outcome Response) :
  filter is_request (snd (handled expected answer)) = [].
Proof.
  unfold handled. destruct answer as [response|f]; [|reflexivity].
  destruct (existsb _ expected); [|reflexivity].
  destruct (delivery response) as [raw|why]; [|reflexivity].
  now destruct (json_loads raw).
Qed.

Lemma drained_makes_no_request (answer : Outcome Response) :
  filter is_request (snd (drained answer)) = [].
Proof.
  unfold drained. destruct answer as [response|f]; [|reflexivity].
  now destruct (existsb _ [OK]).
Qed.

Lemma handled_in_order (expected : list Z) (answer : Outcome Response) :
  StronglySorted lt (0 :: map stage (snd (handled expected answer))).
Proof.
  unfold handled. destruct answer as [response|f];
    [|repeat constructor].
  destruct (existsb _ expected); [|repeat constructor].
  destruct (delivery response) as [raw|why]; [|repeat constructor].
  destruct (json_loads raw); repeat constructor.
Qed.

Lemma drained_in_order (answer : Outcome Response) :
  StronglySorted lt (0 :: map stage (snd (drained answer))).
Proof.
  unfold drained. destruct answer as [response|f]; [|repeat constructor].
  destruct (existsb _ [OK]); repeat constructor.
Qed.

(** X8: an operation whose URL encodes as ASCII asks the agent once,
    whatever comes of it: [create] with a POST that carries the serialized
    object, [get] and [list] with a GET and [delete] with a DELETE that
    carry no body; none sets headers, and none asks again. *)
Theorem one_request_when_encodable (self : _NetworkClient) (obj : IObject)
    (descriptor : Resource) :
  (encodable (child (base_url (kubernetes self))
                    (collection_location (Instance obj))) = true ->
   filter is_request (calls (create self obj)) =
     [CallRequest
        (mkRequest POST
           (child (base_url (kubernetes self))
                  (collection_location (Instance obj)))
           None (Some (mk_BytesProducer (dumps (to_raw obj)))))]) /\
  (encodable (child (base_url (kubernetes self)) (object_location obj)) =
     true ->
   filter is_request (calls (get self obj)) =
     [CallRequest
        (mkRequest GET
           (child (base_url (kubernetes self)) (object_location obj))
           None None)] /\
   filter is_request (calls (delete self obj)) =
     [CallRequest
        (mkRequest DELETE
           (child (base_url (kubernetes self)) (object_location obj))
           None None)]) /\
  (encodable (child (base_url (kubernetes self))
                    (collection_location descriptor)) = true ->
   filter is_request (calls (list_ self descriptor)) =
     [CallRequest
        (mkRequest GET
           (child (base_url (kubernetes self))
                  (collection_location descriptor))
           None None)]).
Proof.
  unfold calls. split; [|split]; intros _.
  - pose proof (create_run self obj []) as Hrun. cbv zeta in Hrun.
    rewrite Hrun. cbn [snd app filter is_request].
    now rewrite handled_makes_no_request.
  - split.
    + pose proof (get_run self obj []) as Hrun. cbv zeta in Hrun.
      rewrite Hrun. cbn [snd app filter is_request].
      now rewrite handled_makes_no_request.
    + pose proof (delete_run self obj []) as Hrun. cbv zeta in Hrun.
      rewrite Hrun. cbn [snd app filter is_request].
      now rewrite drained_makes_no_request.
  - pose proof (list__run self descriptor []) as Hrun. cbv zeta in Hrun.
    rewrite Hrun. cbn [snd app filter is_request].
    now rewrite handled_makes_no_request.
Qed.

(** X9: the calls of an operation come in the order of the pipeline, each
    stage at most once: the request, then either the making of the error
    or the body read, never both, then the parse, then the decoding. *)
Theorem calls_in_pipeline_order (self : _NetworkClient) (obj : IObject)
    (descriptor : Resource) :
  StronglySorted lt (map stage (calls (create self obj))) /\
  StronglySorted lt (map stage (calls (get self obj))) /\
  StronglySorted lt (map stage (calls (delete self obj))) /\
  StronglySorted lt (map stage (calls (list_ self descriptor))).
Proof.
  unfold calls. split; [|split; [|split]].
  - pose proof (create_run self obj []) as Hrun. cbv zeta in Hrun.
    rewrite Hrun. apply handled_in_order.
  - pose proof (get_run self obj []) as Hrun. cbv zeta in Hrun.
    rewrite Hrun. apply handled_in_order.
  - pose proof (delete_run self obj []) as Hrun. cbv zeta in Hrun.
    rewrite Hrun. apply drained_in_order.
  - pose proof (list__run self descriptor []) as Hrun. cbv zeta in Hrun.
    rewrite Hrun. apply handled_in_order.
Qed.

End Answers.

(** ** Which locations and which URLs coincide *)

Lemma append_s_inj (s t : string) : (s ++ "s" = t ++ "s")%string -> s = t.
Proof.
  revert t. induction s as [|c s IH]; intros [|d t] Heq; cbn in Heq.
  - reflexivity.
  - injection Heq as _ Heq. destruct t; discriminate.
  - injection Heq as _ Heq. destruct s; discriminate.
  - injection Heq as -> Heq. f_equal. now apply IH.
Qed.

Lemma collection_location_length (obj : Resource) :
  List.length (collection_location obj) = 3 \/
  List.length (collection_location obj) = 5.
Proof.
  destruct obj as [o|k]; [|now left].
  rewrite collection_location_instance.
  destruct (namespace (metadata o)); [now right | now left].
Qed.

(** X10: two objects have the same location exactly when they have the same
    namespace (or both none), the same name, and kinds that are equal once
    lowered; so the letter case of a kind does not tell locations apart,
    and nothing else of an object enters its location. *)
Theorem object_location_injective (o1 o2 : IObject) :
  object_location o1 = object_location o2 <->
  lower (obj_kind o1) = lower (obj_kind o2) /\
  namespace (metadata o1) = namespace (metadata o2) /\
  name (metadata o1) = name (metadata o2).
Proof.
  unfold object_location. rewrite !collection_location_instance.
  unfold cluster_path, namespaced_path. split.
  - destruct (namespace (metadata o1)) as [ns1|],
             (namespace (metadata o2)) as [ns2|]; cbn [app]; intros Heq.
    + injection Heq as -> Hkind ->. apply append_s_inj in Hkind.
      now rewrite Hkind.
    + apply (f_equal (@List.length string)) in Heq. discriminate.
    + apply (f_equal (@List.length string)) in Heq. discriminate.
    + injection Heq as Hkind ->. apply append_s_inj in Hkind.
      now rewrite Hkind.
  - intros (-> & -> & ->). reflexivity.
Qed.

(** X11: the location of an object is never the location of a collection,
    and below one base URL their URLs differ as well: [get] and [delete]
    cannot address a collection, nor [create] and [list] a single object. *)
Theorem object_and_collection_apart (descriptor : Resource) (obj : IObject)
    (base : URL) :
  collection_location descriptor <> object_location obj /\
  child base (collection_location descriptor) <>
  child base (object_location obj).
Proof.
  assert (Hapart : collection_location descriptor <> object_location obj).
  { intros Heq. apply (f_equal (@List.length string)) in Heq.
    unfold object_location in Heq. rewrite length_app in Heq. cbn in Heq.
    destruct (collection_location_length descriptor),
             (collection_location_length (Instance obj)); lia. }
  split; [exact Hapart|].
  intros Heq. now apply child_inj in Heq.
Qed.

(** X12: [list] does not tell an instance from a type by itself: handed an
    instance that has a namespace, it asks for the collection of that
    namespace, the one [create] posts the instance to. *)
Theorem list_of_instance_is_namespaced `{Collaborators}
    (self : _NetworkClient) (obj : IObject) (ns : string) :
  namespace (metadata obj) = Some ns ->
  sends (request_to self GET
           ["api"; "v1"; "namespaces"; ns; (lower (obj_kind obj) ++ "s")%string]
           None)
        (list_ self (Instance obj)) /\
  sends (request_to self POST
           ["api"; "v1"; "namespaces"; ns; (lower (obj_kind obj) ++ "s")%string]
           (Some (dumps (to_raw obj))))
        (create self obj).
Proof.
  intros Hns.
  pose proof (sends_list_ self (Instance obj)) as Hlist.
  pose proof (sends_create self obj) as Hcreate.
  rewrite collection_location_instance, Hns in Hlist, Hcreate.
  now split.
Qed.

(** X13: with a codec that reads back what it writes for an object, and a
    server that answers the POST with 201 and the GET with 200, both times
    with the serialized object, [create] results in the object it was
    given and [get] in that object again. *)
Theorem create_then_get_round_trip `{Collaborators}
    (self : _NetworkClient) (obj : IObject) (log log' : list Call) :
  json_loads (dumps (to_raw obj)) = Some (to_raw obj) ->
  model_object_from_raw (to_raw obj) = Some (DecodedObject obj) ->
  request (agent self)
    (request_to self POST (collection_location (Instance obj))
                (Some (dumps (to_raw obj)))) =
    Ok (mkResponse CREATED (Delivered (dumps (to_raw obj)))) ->
  request (agent self) (request_to self GET (object_location obj) None) =
    Ok (mkResponse OK (Delivered (dumps (to_raw obj)))) ->
  fst (create self obj log) = Ok (DecodedObject obj) /\
  fst (get self obj log') = Ok (DecodedObject obj).
Proof.
  intros Hcodec Hmodel Hposted Hfetched.
  pose proof (create_run self obj log) as Hcreate.
  pose proof (get_run self obj log') as Hget.
  cbv zeta in Hcreate, Hget.
  rewrite Hcreate, Hget, Hposted, Hfetched. cbn [fst].
  split; apply handled_ok_iff; eexists _, _, _;
    (split; [reflexivity|]); (split; [now left|]); cbn [delivery]; eauto.
Qed.

(** X14: [check_status] looks at which codes are expected only, not at
    their order nor at how often one is given; and when none is expected,
    every response is turned into a failure. *)
Theorem check_status_by_membership (response : Response)
    (expected expected' : list Z) (log : list Call) :
  (forall c, In c expected <-> In c expected') ->
  check_status response expected log = check_status response expected' log /\
  exists f, check_status response [] log =
            (Err f, log ++ [CallFromResponse response]).
Proof.
  intros Hsame. split.
  - destruct (existsb (Z.eqb (code response)) expected) eqn:Hin.
    + apply code_in_expected in Hin.
      rewrite !check_status_expected; [reflexivity | now apply Hsame | exact Hin].
    + assert (Hout : ~ In (code response) expected).
      { intros Habs. apply code_in_expected in Habs. congruence. }
      rewrite !check_status_unexpected; [reflexivity | | exact Hout].
      intros Habs. now apply Hsame in Habs.
  - rewrite check_status_unexpected by (intros []).
    destruct (delivery response); eexists; reflexivity.
Qed.

(** ** The answers on the in-memory double *)

Lemma connection_failure_propagates_witness :
  @get Fake.collaborators (client (Fake.cluster Fake.unreachable)) Fake.pod [] =
  (Err (ConnectionFailed "connection refused"),
   [CallRequest
      (mkRequest GET
         (mkURL "https://kube.example:443"
                ["api"; "v1"; "namespaces"; "ns1"; "pods"; "p1"])
         None None)]).
Proof.
  exact (proj1 (proj2 (@connection_failure_propagates Fake.collaborators
                         (client (Fake.cluster Fake.unreachable)) Fake.pod
                         (KindType "Pod")
                         (ConnectionFailed "connection refused") []))
               eq_refl).
Defined.

Lemma other_status_is_failure_witness :
  fst (delete (client (Fake.cluster
                         (Fake.answering (mkResponse 204 (Delivered [])))))
              Fake.pod []) =
  Err (ServerError (mkKubernetesError 204 [])).
Proof.
  destruct (proj1 (proj2 (@other_status_is_failure Fake.collaborators
              (client (Fake.cluster
                         (Fake.answering (mkResponse 204 (Delivered [])))))
              Fake.pod (KindType "Pod") (mkResponse 204 (Delivered [])) []
              ltac:(discriminate))) eq_refl)
    as (f & Hrun & Hf).
  rewrite Hrun. cbn [fst]. now rewrite (Hf [] eq_refl).
Defined.

Lemma invalid_json_is_decode_error_witness :
  fst (@get Fake.collaborators Runs.ok_with_garbage Fake.pod []) =
  Err (DecodeError Fake.garbage).
Proof.
  exact (f_equal fst
           (proj1 (proj2 (@invalid_json_is_decode_error Fake.collaborators
                            Runs.ok_with_garbage Fake.pod (KindType "Pod")
                            (mkResponse 200 (Delivered Fake.garbage))
                            Fake.garbage [] eq_refl eq_refl))
                  eq_refl eq_refl)).
Defined.

Lemma rejected_document_is_schema_error_witness :
  fst (@get Store.null_codec
         (client (Fake.cluster
                    (Fake.answering (mkResponse 200 (Delivered Store.null)))))
         Fake.pod []) =
  Err (SchemaError JNull).
Proof.
  exact (f_equal fst
           (proj1 (proj2 (@rejected_document_is_schema_error Store.null_codec
                            (client (Fake.cluster
                                       (Fake.answering
                                          (mkResponse 200
                                             (Delivered Store.null)))))
                            Fake.pod (KindType "Pod")
                            (mkResponse 200 (Delivered Store.null))
                            Store.null JNull [] eq_refl eq_refl eq_refl))
                  eq_refl eq_refl)).
Defined.

Lemma broken_transfer_fails_witness :
  fst (delete (client (Fake.cluster
                         (Fake.answering (mkResponse 200 (Lost "reset")))))
              Fake.pod []) =
  Err (BodyReadFailed "reset").
Proof.
  exact (f_equal fst
           (proj1 (proj2 (proj2 (@broken_transfer_fails Fake.collaborators
                            (client (Fake.cluster
                                       (Fake.answering
                                          (mkResponse 200 (Lost "reset")))))
                            Fake.pod (KindType "Pod")
                            (mkResponse 200 (Lost "reset")) "reset" []
                            eq_refl)))
                  eq_refl eq_refl)).
Defined.

Lemma list_of_instance_is_namespaced_witness :
  sends (mkRequest GET
           (mkURL "https://kube.example:443"
                  ["api"; "v1"; "namespaces"; "ns1"; "pods"]) None None)
        (@list_ Fake.collaborators Runs.ok_with_garbage (Instance Fake.pod)).
Proof.
  exact (proj1 (@list_of_instance_is_namespaced Fake.collaborators
                  Runs.ok_with_garbage Fake.pod "ns1" eq_refl)).
Defined.

Lemma create_then_get_round_trip_witness :
  fst (@create Fake.collaborators
         (client (Fake.cluster (Store.keeping Runs.echo))) Fake.pod []) =
    Ok (DecodedObject Fake.pod) /\
  fst (@get Fake.collaborators
         (client (Fake.cluster (Store.keeping Runs.echo))) Fake.pod []) =
    Ok (DecodedObject Fake.pod).
Proof.
  exact (@create_then_get_round_trip Fake.collaborators
           (client (Fake.cluster (Store.keeping Runs.echo))) Fake.pod [] []
           eq_refl eq_refl eq_refl eq_refl).
Defined.

Lemma check_status_by_membership_witness :
  check_status (mkResponse 201 (Delivered [])) [200; 201]%Z [] =
  check_status (mkResponse 201 (Delivered [])) [201; 200; 200]%Z [].
Proof.
  refine (proj1 (check_status_by_membership (mkResponse 201 (Delivered []))
                   [200; 201]%Z [201; 200; 200]%Z [] _)).
  intros c. cbn. intuition.
Defined.

(** ** The endpoint handle on the heap *)

Lemma nth_error_grown (h more : Objects.Heap) (r : Objects.Ref) :
  r < List.length h -> nth_error (h ++ more) r = nth_error h r.
Proof. intros Hlive. now apply nth_error_app1. Qed.

Lemma nth_error_live (h : Objects.Heap) (r : Objects.Ref) (o : Objects.PyObject) :
  nth_error h r = Some o -> r < List.length h.
Proof. intros Hat. apply nth_error_Some. congruence. Qed.

Lemma IAgent_providedBy_live (h : Objects.Heap) (r : Objects.Ref) :
  Objects.IAgent_providedBy h r = true ->
  exists answers state, nth_error h r = Some (Objects.PyAgent answers state).
Proof.
  unfold Objects.IAgent_providedBy.
  destruct (nth_error h r) as [[answers state| | |]|]; try discriminate.
  intros _. now exists answers, state.
Qed.

Lemma IAgent_providedBy_grown (h more : Objects.Heap) (r : Objects.Ref) :
  Objects.IAgent_providedBy h r = true ->
  Objects.IAgent_providedBy (h ++ more) r = true.
Proof.
  intros Hagent.
  destruct (IAgent_providedBy_live h r Hagent) as (answers & state & Hat).
  unfold Objects.IAgent_providedBy.
  rewrite nth_error_grown by (eapply nth_error_live; eassumption).
  now rewrite Hat.
Qed.

Lemma client_run (h : Objects.Heap) (self a : Objects.Ref) (u : URL) :
  nth_error h self = Some (Objects.PyKubernetes u a) ->
  Objects.IAgent_providedBy h a = true ->
  Objects.client h self =
  (h ++ [Objects.PyClient self a], inl (List.length h)).
Proof.
  intros Hself Hagent. unfold Objects.client, Objects._NetworkClient_init,
    Objects.IKubernetes_providedBy.
  now rewrite Hself, Hagent.
Qed.

Lemma clients_run (n : nat) (h : Objects.Heap) (self a : Objects.Ref) (u : URL) :
  nth_error h self = Some (Objects.PyKubernetes u a) ->
  Objects.IAgent_providedBy h a = true ->
  Objects.clients n h self =
  (h ++ repeat (Objects.PyClient self a) n,
   map inl (seq (List.length h) n)).
Proof.
  revert h. induction n as [|n IH]; intros h Hself Hagent; cbn [Objects.clients].
  - cbn. now rewrite app_nil_r.
  - rewrite (client_run h self a u Hself Hagent).
    rewrite (IH (h ++ [Objects.PyClient self a])).
    + rewrite <- app_assoc, length_app. cbn [List.length app repeat seq map].
      now rewrite Nat.add_1_r.
    + rewrite nth_error_grown by (eapply nth_error_live; eassumption).
      exact Hself.
    + now apply IAgent_providedBy_grown.
Qed.

(** C9: every call of [client] on an endpoint whose agent provides [IAgent]
    returns a new [_NetworkClient] that refers to that very endpoint, hence
    to its base URL, and to the very agent of the endpoint.  The call puts
    this one object on the heap and changes no object that was there; the
    object is frozen, as the endpoint is, so no later assignment goes
    through either of them. *)
Theorem client_makes_frozen_client (h : Objects.Heap) (self a : Objects.Ref)
    (u : URL) :
  nth_error h self = Some (Objects.PyKubernetes u a) ->
  Objects.IAgent_providedBy h a = true ->
  Objects.client h self =
    (h ++ [Objects.PyClient self a], inl (List.length h)) /\
  (forall r, r < List.length h ->
     nth_error (h ++ [Objects.PyClient self a]) r = nth_error h r) /\
  (exists endpoint,
     endpoint_at h self = Some endpoint /\
     base_url endpoint = u /\
     endpoint_at (h ++ [Objects.PyClient self a]) self = Some endpoint /\
     client_at (h ++ [Objects.PyClient self a]) (List.length h) =
       Some (client endpoint)) /\
  (forall n,
     Objects.clients n h self =
     (h ++ repeat (Objects.PyClient self a) n,
      map inl (seq (List.length h) n))) /\
  (forall name value,
     Objects.setattr (h ++ [Objects.PyClient self a]) (List.length h)
                     name value =
       (h ++ [Objects.PyClient self a], inr Objects.FrozenInstanceError) /\
     Objects.setattr (h ++ [Objects.PyClient self a]) self name value =
       (h ++ [Objects.PyClient self a], inr Objects.FrozenInstanceError)).
Proof.
  intros Hself Hagent.
  pose proof (nth_error_live _ _ _ Hself) as Hlive.
  destruct (IAgent_providedBy_live h a Hagent) as (answers & state & Ha).
  pose proof (nth_error_live _ _ _ Ha) as Halive.
  assert (Hnew : nth_error (h ++ [Objects.PyClient self a]) (List.length h) =
                 Some (Objects.PyClient self a)).
  { rewrite nth_error_app2 by lia. now rewrite Nat.sub_diag. }
  split; [now apply (client_run h self a u)|].
  split; [intros r Hr; now apply nth_error_grown|].
  split.
  - exists (mk_NetworkKubernetes u answers).
    assert (Hendpoint : forall more,
              endpoint_at (h ++ more) self =
              Some (mk_NetworkKubernetes u answers)).
    { intros more. unfold endpoint_at.
      rewrite nth_error_grown, Hself by assumption.
      now rewrite nth_error_grown, Ha by assumption. }
    split; [rewrite <- (app_nil_r h); apply Hendpoint|].
    split; [reflexivity|]. split; [apply Hendpoint|].
    unfold client_at. rewrite Hnew, Hendpoint.
    rewrite nth_error_grown by assumption. now rewrite Ha.
  - split; [intros n; now apply (clients_run n h self a u)|].
    intros name value. unfold Objects.setattr.
    rewrite Hnew, nth_error_grown by assumption. now rewrite Hself.
Qed.

Lemma client_makes_frozen_client_witness :
  Objects.client Heaps.sound 1 =
    (Heaps.sound ++ [Objects.PyClient 1 0], inl 2) /\
  Objects.clients 3 Heaps.sound 1 =
    (Heaps.sound ++ repeat (Objects.PyClient 1 0) 3, [inl 2; inl 3; inl 4]).
Proof.
  pose proof (client_makes_frozen_client Heaps.sound 1 0 Heaps.address
                eq_refl eq_refl) as (Hcall & _ & _ & Hcalls & _).
  split; [exact Hcall | exact (Hcalls 3)].
Defined.

(** X15: [network_kubernetes] takes any object for the agent, since that
    attribute has no validator; the check is made by [client].  An endpoint
    made without an agent gets a new one of its own and gives clients that
    refer to it; one made with an object that provides [IAgent] gives
    clients that refer to that object; one made with any other object is
    made all the same, and every [client] on it raises [TypeError] for
    [agent] and changes nothing. *)
Theorem client_checks_the_agent (reactor : IAgent) (h : Objects.Heap)
    (u : URL) (given : Objects.Ref) :
  (Objects.network_kubernetes reactor h u None =
     (h ++ [Objects.PyAgent reactor [];
            Objects.PyKubernetes u (List.length h)],
      inl (S (List.length h))) /\
   Objects.client
     (h ++ [Objects.PyAgent reactor [];
            Objects.PyKubernetes u (List.length h)])
     (S (List.length h)) =
     ((h ++ [Objects.PyAgent reactor [];
             Objects.PyKubernetes u (List.length h)])
        ++ [Objects.PyClient (S (List.length h)) (List.length h)],
      inl (S (S (List.length h))))) /\
  (Objects.IAgent_providedBy h given = true ->
   Objects.network_kubernetes reactor h u (Some given) =
     (h ++ [Objects.PyKubernetes u given], inl (List.length h)) /\
   Objects.client (h ++ [Objects.PyKubernetes u given]) (List.length h) =
     ((h ++ [Objects.PyKubernetes u given])
        ++ [Objects.PyClient (List.length h) given],
      inl (S (List.length h)))) /\
  (given < List.length h ->
   Objects.IAgent_providedBy h given = false ->
   Objects.network_kubernetes reactor h u (Some given) =
     (h ++ [Objects.PyKubernetes u given], inl (List.length h)) /\
   forall n,
     Objects.clients n (h ++ [Objects.PyKubernetes u given]) (List.length h) =
     (h ++ [Objects.PyKubernetes u given],
      repeat (inr (Objects.TypeError "agent")) n)).
Proof.
  split; [|split].
  - split; [reflexivity|].
    erewrite client_run.
    + rewrite length_app. cbn [List.length]. now rewrite Nat.add_comm.
    + rewrite nth_error_app2 by lia.
      replace (S (List.length h) - List.length h) with 1 by lia. reflexivity.
    + unfold Objects.IAgent_providedBy.
      rewrite nth_error_app2 by lia. now rewrite Nat.sub_diag.
  - intros Hagent. split; [reflexivity|].
    erewrite client_run.
    + rewrite length_app. cbn [List.length]. now rewrite Nat.add_1_r.
    + rewrite nth_error_app2 by lia. now rewrite Nat.sub_diag.
    + now apply IAgent_providedBy_grown.
  - intros Hlive Hplain. split; [reflexivity|].
    assert (Hraise : Objects.client (h ++ [Objects.PyKubernetes u given])
                       (List.length h) =
                     (h ++ [Objects.PyKubernetes u given],
                      inr (Objects.TypeError "agent"))).
    { unfold Objects.client, Objects._NetworkClient_init,
        Objects.IKubernetes_providedBy.
      rewrite nth_error_app2 by lia. rewrite Nat.sub_diag. cbn.
      unfold Objects.IAgent_providedBy in *.
      rewrite nth_error_grown by assumption.
      destruct (nth_error h given) as [[| | |]|]; try reflexivity.
      discriminate. }
    induction n as [|n IH]; [reflexivity|].
    cbn [Objects.clients repeat]. now rewrite Hraise, IH.
Qed.

Lemma client_checks_the_agent_witness :
  Objects.network_kubernetes Fake.unreachable [Objects.PyPlain []]
    Heaps.address (Some 0) = (Heaps.unsound, inl 1) /\
  Objects.clients 2 Heaps.unsound 1 =
    (Heaps.unsound,
     [inr (Objects.TypeError "agent"); inr (Objects.TypeError "agent")]).
Proof.
  pose proof (proj2 (proj2 (client_checks_the_agent Fake.unreachable
                              [Objects.PyPlain []] Heaps.address 0))
                ltac:(cbn; lia) eq_refl) as (Hmade & Hcalls).
  split; [exact Hmade | exact (Hcalls 2)].
Defined.

Lemma one_request_when_encodable_witness :
  filter is_request (calls (@get Fake.collaborators Runs.ok_with_garbage
                              Fake.pod)) =
    [CallRequest
       (mkRequest GET
          (mkURL "https://kube.example:443"
                 ["api"; "v1"; "namespaces"; "ns1"; "pods"; "p1"])
          None None)] /\
  filter is_request (calls (delete Runs.ok_with_garbage Fake.pod)) =
    [CallRequest
       (mkRequest DELETE
          (mkURL "https://kube.example:443"
                 ["api"; "v1"; "namespaces"; "ns1"; "pods"; "p1"])
          None None)].
Proof.
  exact (proj1 (proj2 (@one_request_when_encodable Fake.collaborators
                         Runs.ok_with_garbage Fake.pod (KindType "Pod")))
               eq_refl).
Defined.
